(** * Restaurant-costing application: ingredient routes, generic DAO, ingredient form

    A shallow embedding of
      - [src/api/src/routes/ingredient/index.ts] (the Express router),
      - [src/unnamed/part_000] (hasEmptyArray, PantryView, PantryTable,
        CreateAndReadDAO, BaseDAO),
      - [src/ui/src/components/forms/BasicForm.tsx] (handleInputChange,
        validateForm, handleSubmit, handleClear),
    together with the JavaScript built-ins those files call
    (truthiness, typeof, String.prototype.trim, parseInt, parseFloat,
    Number, object spread).

    TypeScript types are erased at run time, so rows, criteria, options and
    request bodies are all JavaScript values.  The database driver is an
    opaque collaborator: it is a parameter that answers calls, and every
    call made to it is recorded. *)

From Stdlib Require Import String Ascii List Bool ZArith QArith Lia.
From Stdlib Require Import DecimalString.
From Stdlib Require DecimalNat Qcanon.
Import ListNotations.

Set Warnings "-register-all".

Local Open Scope string_scope.
Local Open Scope Z_scope.

(* ================================================================== *)
(** ** JavaScript values *)
(* ================================================================== *)

Module Js.

(** A JavaScript number.  A finite double is the rational it denotes,
    kept in lowest terms; what a conversion produces is rounded to the
    nearest double by [to_double] below.  [-0] and [+0] are both
    [Finite 0]: the program only tests numbers for truthiness and compares
    them with zero, and neither tells the two zeros apart. *)
Inductive number : Type :=
| NaN
| Infinity (negative : bool)
| Finite (q : Q).

Inductive value : Type :=
| Undefined
| Null
| Bool (b : bool)
| Num (n : number)
| Str (s : string)
| Arr (items : list value)
| Obj (props : list (string * value)).

Definition of_Z (z : Z) : value := Num (Finite (inject_Z z)).

Definition isNaN (n : number) : bool :=
  match n with NaN => true | _ => false end.

(** [a < b] on numbers. *)
Definition lt (a b : number) : bool :=
  match a, b with
  | NaN, _ | _, NaN => false
  | Infinity true, Infinity true => false
  | Infinity true, _ => true
  | _, Infinity true => false
  | Infinity false, _ => false
  | _, Infinity false => true
  | Finite x, Finite y => negb (Qle_bool y x)
  end.

(** [a <= b] on numbers. *)
Definition le (a b : number) : bool :=
  match a, b with
  | NaN, _ | _, NaN => false
  | Infinity true, _ => true
  | _, Infinity true => false
  | _, Infinity false => true
  | Infinity false, _ => false
  | Finite x, Finite y => Qle_bool x y
  end.

Definition zero : number := Finite 0%Q.

(** ToBoolean. *)
Definition truthy (v : value) : bool :=
  match v with
  | Undefined | Null => false
  | Bool b => b
  | Num NaN => false
  | Num (Infinity _) => true
  | Num (Finite q) => negb (Qeq_bool q 0%Q)
  | Str s => negb (String.eqb s "")
  | Arr _ | Obj _ => true
  end.

Definition typeof (v : value) : string :=
  match v with
  | Undefined => "undefined"
  | Null => "object"
  | Bool _ => "boolean"
  | Num _ => "number"
  | Str _ => "string"
  | Arr _ | Obj _ => "object"
  end.

Definition is_string (v : value) : bool :=
  match v with Str _ => true | _ => false end.

Definition is_number (v : value) : bool :=
  match v with Num _ => true | _ => false end.

(** [Array.isArray]. *)
Definition isArray (v : value) : bool :=
  match v with Arr _ => true | _ => false end.

(** Own-property lookup in a property list. *)
Fixpoint lookup (k : string) (props : list (string * value)) : option value :=
  match props with
  | [] => None
  | (k', v) :: rest => if String.eqb k k' then Some v else lookup k rest
  end.

Definition hasOwnProperty {A : Type} (props : list (string * A)) (k : string) : bool :=
  existsb (fun kv => String.eqb k (fst kv)) props.

(** The result of running a piece of JavaScript: it returns or it throws. *)
Inductive Outcome (A : Type) : Type :=
| Returned (a : A)
| Threw (e : value).
Arguments Returned {A} a.
Arguments Threw {A} e.

Definition new_Error (msg : string) : value :=
  Obj [("name", Str "Error"); ("message", Str msg)].

Definition new_TypeError (msg : string) : value :=
  Obj [("name", Str "TypeError"); ("message", Str msg)].

(** [o.k] for a property name that no built-in prototype defines (the
    names read in this program are name, unit, cost_per_unit, vendor_id and
    message): reading from undefined or null throws; a primitive or an
    array has no such property. *)
Definition get (o : value) (k : string) : Outcome value :=
  match o with
  | Undefined | Null =>
      Threw (new_TypeError ("Cannot read properties of undefined (reading '" ++ k ++ "')"))
  | Obj props => Returned (match lookup k props with Some v => v | None => Undefined end)
  | _ => Returned Undefined
  end.

(* ------------------------------------------------------------------ *)
(** *** Strings: white space and trimming *)

(** Strings are sequences of code units below 256.  In that range the
    white-space and line-terminator code units are TAB, LF, VT, FF, CR,
    SPACE and NBSP. *)
Definition is_whitespace (c : ascii) : bool :=
  let n := nat_of_ascii c in
  (Nat.eqb n 9 || Nat.eqb n 10 || Nat.eqb n 11 || Nat.eqb n 12
   || Nat.eqb n 13 || Nat.eqb n 32 || Nat.eqb n 160)%bool.

Fixpoint trimStart_chars (cs : list ascii) : list ascii :=
  match cs with
  | c :: rest => if is_whitespace c then trimStart_chars rest else cs
  | [] => []
  end.

Definition trimEnd_chars (cs : list ascii) : list ascii :=
  rev (trimStart_chars (rev cs)).

Definition trim_chars (cs : list ascii) : list ascii :=
  trimEnd_chars (trimStart_chars cs).

(** [String.prototype.trim]. *)
Definition trim (s : string) : string :=
  string_of_list_ascii (trim_chars (list_ascii_of_string s)).

(* ------------------------------------------------------------------ *)
(** *** Rounding to a double *)

(** [floor (log2 (a / b))] for positive [a] and [b]. *)
Definition floor_log2 (a b : Z) : Z :=
  let k := Z.log2 a - Z.log2 b in
  if 0 <=? k
  then (if b * 2 ^ k <=? a then k else k - 1)
  else (if b <=? a * 2 ^ (- k) then k else k - 1).

(** [n / d] rounded to the nearest integer, a tie going to the even one. *)
Definition round_half_even (n d : Z) : Z :=
  let q := n / d in
  let r := n mod d in
  if 2 * r <? d then q
  else if d <? 2 * r then q + 1
  else if Z.even q then q else q + 1.

(** The double nearest to the positive rational [a / b]: a 53-bit
    significand [m] at the exponent [e] of the value's binade, the exponent
    not going below that of the subnormals; a value that rounds to [2^1024]
    or beyond is Infinity, one that rounds to nothing is zero. *)
Definition double_of_positive (a b : Z) : number :=
  let e := Z.max (floor_log2 a b - 52) (-1074) in
  let m :=
    if 0 <=? e then round_half_even a (b * 2 ^ e)
    else round_half_even (a * 2 ^ (- e)) b in
  if m =? 0 then zero
  else if 1024 <=? Z.log2 m + e then Infinity false
  else if 0 <=? e then Finite (inject_Z (m * 2 ^ e))
  else Finite (Qred (Qmake m (Z.to_pos (2 ^ (- e))))).

Definition negate (n : number) : number :=
  match n with
  | NaN => NaN
  | Infinity negative => Infinity (negb negative)
  | Finite q => Finite (Qopp q)
  end.

(** The Number value for a mathematical value: round to nearest, ties to
    even, as the engine's string-to-number conversion does. *)
Definition to_double (q : Q) : number :=
  match Qnum q with
  | Z0 => zero
  | Zpos a => double_of_positive (Zpos a) (Zpos (Qden q))
  | Zneg a => negate (double_of_positive (Zpos a) (Zpos (Qden q)))
  end.

(* ------------------------------------------------------------------ *)
(** *** Numeric literals: parseInt, parseFloat, Number *)

Definition digit_of (radix : Z) (c : ascii) : option Z :=
  let n := Z.of_nat (nat_of_ascii c) in
  let d :=
    if ((48 <=? n) && (n <=? 57))%bool then Some (n - 48)
    else if ((97 <=? n) && (n <=? 122))%bool then Some (n - 87)
    else if ((65 <=? n) && (n <=? 90))%bool then Some (n - 55)
    else None in
  match d with
  | Some d => if d <? radix then Some d else None
  | None => None
  end.

(** Reads the longest run of digits of the radix: its value, its length
    and the characters after it. *)
Fixpoint take_digits (radix : Z) (cs : list ascii) (acc : Z) (len : nat)
  : Z * nat * list ascii :=
  match cs with
  | c :: rest =>
      match digit_of radix c with
      | Some d => take_digits radix rest (acc * radix + d) (S len)
      | None => (acc, len, cs)
      end
  | [] => (acc, len, [])
  end.

Definition is_char (c : ascii) (s : string) : bool :=
  String.eqb (String c EmptyString) s.

Definition strip_sign (cs : list ascii) : bool * list ascii :=
  match cs with
  | c :: rest =>
      if is_char c "-" then (true, rest)
      else if is_char c "+" then (false, rest)
      else (false, cs)
  | [] => (false, [])
  end.

(** [parseInt(s)] with no radix argument. *)
Definition parseInt (s : string) : number :=
  let cs := trimStart_chars (list_ascii_of_string s) in
  let '(negative, cs) := strip_sign cs in
  let '(radix, cs) :=
    match cs with
    | z :: x :: rest =>
        if (is_char z "0" && (is_char x "x" || is_char x "X"))%bool
        then (16, rest) else (10, cs)
    | _ => (10, cs)
    end in
  let '(v, len, _) := take_digits radix cs 0 0 in
  match len with
  | O => NaN
  | _ => to_double (inject_Z (if negative then - v else v))
  end.

(** [m * 10^e] as a reduced rational. *)
Definition scale10 (m e : Z) : Q :=
  if 0 <=? e then inject_Z (m * 10 ^ e)
  else Qred (Qmake m (Z.to_pos (10 ^ (- e)))).

Fixpoint starts_with (prefix cs : list ascii) : option (list ascii) :=
  match prefix, cs with
  | [], _ => Some cs
  | p :: prefix', c :: cs' => if Ascii.eqb p c then starts_with prefix' cs' else None
  | _ :: _, [] => None
  end.

(** The exponent part [e|E (+|-)? digits] when one is present in front. *)
Definition take_exponent (cs : list ascii) : Z * list ascii :=
  match cs with
  | e :: rest =>
      if (is_char e "e" || is_char e "E")%bool then
        let '(negative, rest') := strip_sign rest in
        let '(v, len, rest'') := take_digits 10 rest' 0 0 in
        match len with
        | O => (0, cs)
        | _ => (if negative then - v else v, rest'')
        end
      else (0, cs)
  | [] => (0, [])
  end.

(** The longest prefix that is a StrDecimalLiteral, with the characters
    after it; [None] when no prefix is one. *)
Definition StrDecimalLiteral (cs : list ascii) : option (number * list ascii) :=
  let '(negative, cs) := strip_sign cs in
  match starts_with (list_ascii_of_string "Infinity") cs with
  | Some rest => Some (Infinity negative, rest)
  | None =>
      let '(ip, ilen, after_int) := take_digits 10 cs 0 0 in
      let '(fp, flen, after_frac, dot) :=
        match after_int with
        | d :: rest =>
            if is_char d "." then
              let '(fp, flen, rest') := take_digits 10 rest 0 0 in
              (fp, flen, rest', true)
            else (0, O, after_int, false)
        | [] => (0, O, [], false)
        end in
      match ilen, flen with
      | O, O => None
      | _, _ =>
          let '(ex, rest) := take_exponent after_frac in
          let m := ip * 10 ^ Z.of_nat flen + fp in
          let q := scale10 (if negative then - m else m) (ex - Z.of_nat flen) in
          Some (to_double q, rest)
      end
  end.

(** [parseFloat(s)]. *)
Definition parseFloat (s : string) : number :=
  match StrDecimalLiteral (trimStart_chars (list_ascii_of_string s)) with
  | Some (n, _) => n
  | None => NaN
  end.

(** [0x], [0o] and [0b] integer literals, which take no sign. *)
Definition NonDecimalIntegerLiteral (cs : list ascii) : option number :=
  match cs with
  | z :: p :: rest =>
      if is_char z "0" then
        let radix :=
          if (is_char p "x" || is_char p "X")%bool then Some 16
          else if (is_char p "o" || is_char p "O")%bool then Some 8
          else if (is_char p "b" || is_char p "B")%bool then Some 2
          else None in
        match radix with
        | Some r =>
            match take_digits r rest 0 0 with
            | (v, S _, []) => Some (to_double (inject_Z v))
            | _ => None
            end
        | None => None
        end
      else None
  | _ => None
  end.

(** StringToNumber: the whole trimmed string must be a numeric literal;
    the empty string is [0]. *)
Definition StringToNumber (s : string) : number :=
  let cs := trim_chars (list_ascii_of_string s) in
  match cs with
  | [] => zero
  | _ =>
      match NonDecimalIntegerLiteral cs with
      | Some n => n
      | None =>
          match StrDecimalLiteral cs with
          | Some (n, []) => n
          | _ => NaN
          end
      end
  end.

(** [Number(v)].  An array converts through its joined string: an empty
    array is the empty string, a one-element array is its element's string
    (empty for undefined and null), and a longer one contains a comma, which
    no numeric literal does.  A plain object is "[object Object]". *)
Fixpoint Number (v : value) : number :=
  match v with
  | Undefined => NaN
  | Null => zero
  | Bool b => if b then Finite 1%Q else zero
  | Num n => n
  | Str s => StringToNumber s
  | Arr [] => zero
  | Arr [x] =>
      match x with
      | Undefined | Null => zero
      | Bool _ => NaN
      | Obj _ => NaN
      | _ => Number x
      end
  | Arr _ => NaN
  | Obj _ => NaN
  end.

(* ------------------------------------------------------------------ *)
(** *** JSON *)

(** What [JSON.parse] reads back from the text [JSON.stringify(v)] makes
    of an object, an array or a primitive: a number that is not finite has
    become null, an undefined array element has become null, an undefined
    property is gone, and everything else is as it was. *)
Fixpoint through_JSON (v : value) : value :=
  match v with
  | Num (Finite _) => v
  | Num _ => Null
  | Arr items =>
      Arr (map (fun item => match item with
                            | Undefined => Null
                            | _ => through_JSON item
                            end) items)
  | Obj props =>
      Obj ((fix members (l : list (string * value)) : list (string * value) :=
              match l with
              | [] => []
              | (k, Undefined) :: rest => members rest
              | (k, member) :: rest => (k, through_JSON member) :: members rest
              end) props)
  | _ => v
  end.

(* ------------------------------------------------------------------ *)
(** *** Object spread *)

Fixpoint assign (acc : list (string * value)) (k : string) (v : value)
  : list (string * value) :=
  match acc with
  | [] => [(k, v)]
  | (k', v') :: rest =>
      if String.eqb k k' then (k', v) :: rest else (k', v') :: assign rest k v
  end.

Definition index_key (i : nat) : string :=
  NilEmpty.string_of_uint (Nat.to_uint i).

Fixpoint indexed {A : Type} (f : A -> value) (l : list A) (i : nat)
  : list (string * value) :=
  match l with
  | [] => []
  | x :: rest => (index_key i, f x) :: indexed f rest (S i)
  end.

(** The own enumerable properties a spread [...v] copies. *)
Definition own_props (v : value) : list (string * value) :=
  match v with
  | Obj props => props
  | Arr items => indexed (fun x => x) items 0
  | Str s => indexed (fun c => Str (String c EmptyString)) (list_ascii_of_string s) 0
  | _ => []
  end.

(** [{ ...a, ...b }]. *)
Definition spread2 (a b : value) : value :=
  Obj (fold_left (fun acc kv => assign acc (fst kv) (snd kv))
         (own_props a ++ own_props b) []).

End Js.

(* ================================================================== *)
(** ** Effects: driver calls, console output, exceptions *)
(* ================================================================== *)

Module Eff.
Import Js.

(** One call on a table object of the driver, [db.<target>.<method>(args)]
    or [this.table.<method>(args)], with exactly the arguments passed. *)
Record Call : Type := mkCall {
  target : string;
  method : string;
  args : list value
}.

Record ConsoleEntry : Type := mkConsole {
  level : string;
  items : list value
}.

(** The driver answers a call from the persisted state [S]: it returns a
    value or throws, and leaves a new persisted state. *)
Definition Driver (S : Type) : Type := Call -> S -> Outcome value * S.

Record World (S : Type) : Type := mkWorld {
  store : S;
  calls : list Call;
  console : list ConsoleEntry
}.
Arguments mkWorld {S} store calls console.
Arguments store {S} w.
Arguments calls {S} w.
Arguments console {S} w.

Definition M (S A : Type) : Type := World S -> Outcome A * World S.

Definition ret {S A : Type} (a : A) : M S A := fun w => (Returned a, w).

Definition throw {S A : Type} (e : value) : M S A := fun w => (Threw e, w).

Definition bind {S A B : Type} (m : M S A) (k : A -> M S B) : M S B :=
  fun w =>
    match m w with
    | (Returned a, w') => k a w'
    | (Threw e, w') => (Threw e, w')
    end.

(** [try { m } catch (error) { handler }]. *)
Definition try_catch {S A : Type} (m : M S A) (handler : value -> M S A) : M S A :=
  fun w =>
    match m w with
    | (Returned a, w') => (Returned a, w')
    | (Threw e, w') => handler e w'
    end.

Definition lift {S A : Type} (o : Outcome A) : M S A := fun w => (o, w).

(** [await db.<target>.<method>(...args)]: the call is recorded, then
    answered by the driver. *)
Definition call {S : Type} (db : Driver S) (c : Call) : M S value :=
  fun w =>
    let '(r, s') := db c (store w) in
    (r, mkWorld s' (calls w ++ [c]) (console w)).

Definition console_write {S : Type} (lvl : string) (xs : list value) : M S unit :=
  fun w => (Returned tt, mkWorld (store w) (calls w) (console w ++ [mkConsole lvl xs])).

Definition init {S : Type} (s : S) : World S := mkWorld s [] [].

(** A driver whose lookups do not write: find, findOne and count leave the
    persisted state as it was. *)
Definition lookups_read_only {S : Type} (db : Driver S) : Prop :=
  forall c s,
    method c = "find" \/ method c = "findOne" \/ method c = "count" ->
    snd (db c s) = s.

End Eff.

Declare Scope js_scope.
Delimit Scope js_scope with js.
Notation "x <- m ;; k" := (Eff.bind m (fun x => k))
  (at level 61, m at next level, right associativity) : js_scope.
Notation "m ;;; k" := (Eff.bind m (fun _ => k))
  (at level 61, right associativity) : js_scope.

(* ================================================================== *)
(** ** Route layer: src/api/src/routes/ingredient/index.ts *)
(* ================================================================== *)

Module IngredientRouter.
Import Js Eff.
Local Open Scope js_scope.

Record Response : Type := mkResponse {
  status : Z;
  body : value
}.

(** [res.status(code).json(b)]. *)
Definition status_json (code : Z) (b : value) : Response := mkResponse code b.

(** [res.json(b)]: the status stays at its default, 200. *)
Definition json (b : value) : Response := mkResponse 200 b.

Definition message (text : string) : value := Obj [("message", Str text)].

Definition msg_internal := "Internal server error".
Definition msg_invalid_id := "Invalid ingredient ID".
Definition msg_not_found := "Ingredient not found".
Definition msg_missing := "Missing required fields: name, unit, cost_per_unit, vendor_id".
Definition msg_strings := "Name and unit must be strings".
Definition msg_cost := "Cost per unit must be a positive number".
Definition msg_vendor_id := "Vendor ID must be a positive number".
Definition msg_vendor_missing := "Vendor not found".
Definition msg_created := "Ingredient created successfully".

Definition is_undefined (v : value) : bool :=
  match v with Undefined => true | _ => false end.

(** [name.trim()]. *)
Definition call_trim (v : value) : Outcome value :=
  match v with
  | Str s => Returned (Str (trim s))
  | _ => Threw (new_TypeError "name.trim is not a function")
  end.

(** The record handed to [db.ingredient.insert]. *)
Definition insert_record (name unit cost_per_unit vendor_id : value) : value :=
  Obj [("name", name); ("unit", unit);
       ("cost_per_unit", cost_per_unit); ("vendor_id", vendor_id)].

Definition created_envelope (row : value) : value :=
  Obj [("message", Str msg_created); ("ingredient", row)].

Section Handlers.
Context {S : Type} (db : Driver S).

(** [router.get("/")]. *)
Definition get_all : M S Response :=
  try_catch
    (ingredients <- call db (mkCall "ingredient" "find" []) ;;
     ret (json ingredients))
    (fun error =>
       console_write "error" [Str "Error fetching ingredients:"; error] ;;;
       ret (status_json 500 (message msg_internal))).

(** [router.get("/:id")], on the path parameter [req.params.id]. *)
Definition get_by_id (id_param : string) : M S Response :=
  try_catch
    (let id := parseInt id_param in
     if isNaN id then ret (status_json 400 (message msg_invalid_id))
     else
       ingredient <- call db (mkCall "ingredient" "findOne" [Num id]) ;;
       if negb (truthy ingredient) then ret (status_json 404 (message msg_not_found))
       else ret (json ingredient))
    (fun error =>
       console_write "error" [Str "Error fetching ingredient:"; error] ;;;
       ret (status_json 500 (message msg_internal))).

(** [router.post("/")], on [req.body]. *)
Definition post (req_body : value) : M S Response :=
  try_catch
    (name <- lift (get req_body "name") ;;
     unit <- lift (get req_body "unit") ;;
     cost_per_unit <- lift (get req_body "cost_per_unit") ;;
     vendor_id <- lift (get req_body "vendor_id") ;;
     if (negb (truthy name) || negb (truthy unit)
         || is_undefined cost_per_unit || negb (truthy vendor_id))%bool
     then ret (status_json 400 (message msg_missing))
     else if (negb (String.eqb (typeof name) "string")
              || negb (String.eqb (typeof unit) "string"))%bool
     then ret (status_json 400 (message msg_strings))
     else if (negb (String.eqb (typeof cost_per_unit) "number")
              || lt (Number cost_per_unit) zero)%bool
     then ret (status_json 400 (message msg_cost))
     else if (negb (String.eqb (typeof vendor_id) "number")
              || le (Number vendor_id) zero)%bool
     then ret (status_json 400 (message msg_vendor_id))
     else
       vendor <- call db (mkCall "entity" "findOne" [vendor_id]) ;;
       if negb (truthy vendor) then ret (status_json 400 (message msg_vendor_missing))
       else
         trimmed <- lift (call_trim name) ;;
         newIngredient <- call db (mkCall "ingredient" "insert"
                                     [insert_record trimmed unit cost_per_unit vendor_id]) ;;
         ret (status_json 201 (created_envelope newIngredient)))
    (fun error =>
       console_write "error" [Str "Error creating ingredient:"; error] ;;;
       ret (status_json 500 (message msg_internal))).

End Handlers.

End IngredientRouter.

(* ================================================================== *)
(** ** Data-access layer: src/unnamed/part_000 *)
(* ================================================================== *)

(** [isLength(value)] of lodash: a number that is an integer, above -1
    and not above [Number.MAX_SAFE_INTEGER]; the length it gives. *)
Definition isLength (v : Js.value) : option nat :=
  match v with
  | Js.Num (Js.Finite q) =>
      let r := Qred q in
      if (Pos.eqb (Qden r) 1 && (0 <=? Qnum r) && (Qnum r <=? 2 ^ 53 - 1))%bool
      then Some (Z.to_nat (Qnum r))
      else None
  | _ => None
  end.

(** [isArrayLike(value)] of lodash on an object: its own [length], when
    that is a length. *)
Definition array_like_length (props : list (string * Js.value)) : option nat :=
  match Js.lookup "length" props with
  | Some v => isLength v
  | None => None
  end.

(** [iterable[index]] on an object. *)
Definition at_index (props : list (string * Js.value)) (index : nat) : Js.value :=
  match Js.lookup (Js.index_key index) props with
  | Some v => v
  | None => Js.Undefined
  end.

(** [some(collection, predicate)] of lodash.  An array gives its
    elements and a string its characters.  An object is array-like when
    its [length] is a length, and is then read at the indices
    [0 .. length - 1] and nowhere else; any other object gives its own
    enumerable values.  The remaining values give nothing. *)
Definition some (collection : Js.value) (predicate : Js.value -> bool) : bool :=
  match collection with
  | Js.Arr items => existsb predicate items
  | Js.Obj props =>
      match array_like_length props with
      | Some length => existsb predicate (map (at_index props) (seq 0 length))
      | None => existsb predicate (map snd props)
      end
  | Js.Str s =>
      existsb predicate
        (map (fun c => Js.Str (String c EmptyString)) (list_ascii_of_string s))
  | _ => false
  end.

(** [Array.isArray(val) && val.length === 0]. *)
Definition is_empty_array (val : Js.value) : bool :=
  match val with
  | Js.Arr [] => true
  | _ => false
  end.

Definition hasEmptyArray (criteria : Js.value) : bool :=
  some criteria is_empty_array.

(** [v.length]. *)
Definition length_of (v : Js.value) : Js.Outcome Js.value :=
  match v with
  | Js.Arr items => Js.Returned (Js.of_Z (Z.of_nat (List.length items)))
  | Js.Str s => Js.Returned (Js.of_Z (Z.of_nat (String.length s)))
  | Js.Obj _ => Js.get v "length"
  | Js.Undefined | Js.Null => Js.get v "length"
  | _ => Js.Returned Js.Undefined
  end.

(** [a === b]; two object or array values are taken to be different
    references. *)
Definition strict_equal (a b : Js.value) : bool :=
  match a, b with
  | Js.Undefined, Js.Undefined => true
  | Js.Null, Js.Null => true
  | Js.Bool x, Js.Bool y => Bool.eqb x y
  | Js.Num (Js.Finite x), Js.Num (Js.Finite y) => Qeq_bool x y
  | Js.Num (Js.Infinity x), Js.Num (Js.Infinity y) => Bool.eqb x y
  | Js.Str x, Js.Str y => String.eqb x y
  | _, _ => false
  end.

(** [records.map((r) => f(r))], for a callback that is an arrow function
    of one argument. *)
Definition array_map (f : Js.value -> Js.value) (records : Js.value)
  : Js.Outcome Js.value :=
  match records with
  | Js.Arr items => Js.Returned (Js.Arr (map f items))
  | Js.Undefined | Js.Null =>
      Js.Threw (Js.new_TypeError "Cannot read properties of undefined (reading 'map')")
  | _ => Js.Threw (Js.new_TypeError "records.map is not a function")
  end.

(** The calls [callback(items[i], i, items)] that [Array.prototype.map]
    makes, in order, up to the first that throws. *)
Fixpoint map_callback (callback : Js.value -> nat -> list Js.value -> Js.Outcome Js.value)
    (array : list Js.value) (index : nat) (items : list Js.value)
  : Js.Outcome (list Js.value) :=
  match items with
  | [] => Js.Returned []
  | item :: rest =>
      match callback item index array with
      | Js.Threw e => Js.Threw e
      | Js.Returned mapped =>
          match map_callback callback array (S index) rest with
          | Js.Threw e => Js.Threw e
          | Js.Returned others => Js.Returned (mapped :: others)
          end
      end
  end.

(** [records.map(method)] for a method passed as a value, without its
    receiver: it is called on [(row, index, array)] with [this]
    undefined. *)
Definition array_map_method
    (method : Js.value -> nat -> list Js.value -> Js.Outcome Js.value)
    (records : Js.value) : Js.Outcome Js.value :=
  match records with
  | Js.Arr items =>
      match map_callback method items 0 items with
      | Js.Returned mapped => Js.Returned (Js.Arr mapped)
      | Js.Threw e => Js.Threw e
      end
  | Js.Undefined | Js.Null =>
      Js.Threw (Js.new_TypeError "Cannot read properties of undefined (reading 'map')")
  | _ => Js.Threw (Js.new_TypeError "records.map is not a function")
  end.

Module PantryView.
Import Js Eff.
Local Open Scope js_scope.

(** A named script: a function from a parameter object to a promise. *)
Definition Script (S : Type) : Type := value -> M S value.

(** The fields of the class: the name of the driver's table object behind
    [this.table], [this.scripts] (absent when undefined) and
    [this.defaultRetrievalOptions]. *)
Record t (S : Type) : Type := mk {
  table : string;
  scripts : option (list (string * Script S));
  defaultRetrievalOptions : value
}.
Arguments mk {S} table scripts defaultRetrievalOptions.
Arguments table {S} t.
Arguments scripts {S} t.
Arguments defaultRetrievalOptions {S} t.

Section Methods.
Context {S : Type} (db : Driver S) (this : t S).

Definition findOne (criteria options : value) : M S value :=
  call db (mkCall (table this) "findOne" [criteria]).

Definition find (criteria options : value) : M S value :=
  if (truthy criteria && hasEmptyArray criteria)%bool then ret (Arr [])
  else call db (mkCall (table this) "find"
                  [criteria; spread2 (defaultRetrievalOptions this) options]).

Definition count (criteria : value) : M S value :=
  if (truthy criteria && hasEmptyArray criteria)%bool then ret (Str "0")
  else call db (mkCall (table this) "count" [criteria]).

(** [this.scripts[scriptName]]: the own property of that name; what is
    read from a name that is not there is undefined, and calling it is a
    TypeError. *)
Fixpoint property (scriptName : string) (l : list (string * Script S)) : Script S :=
  match l with
  | [] => fun _ => throw (new_TypeError "table.script(...) is not a function")
  | (k, f) :: rest => if String.eqb scriptName k then f else property scriptName rest
  end.

(** [script(scriptName)] is not async: it throws where it stands. *)
Definition script (scriptName : string) : Outcome (Script S) :=
  match scripts this with
  | None => Threw (new_Error "No scripts available for this table")
  | Some defined =>
      if negb (hasOwnProperty defined scriptName)
      then Threw (new_Error ("Script " ++ scriptName ++ " does not exist on this table"))
      else Returned (property scriptName defined)
  end.

End Methods.
End PantryView.

Module PantryTable.
Import Js Eff.
Local Open Scope js_scope.

Section Methods.
Context {S : Type} (db : Driver S) (this : PantryView.t S).

Definition insertOne (object options : value) : M S value :=
  call db (mkCall (PantryView.table this) "insert" [object; options]).

Definition insert (objects options : value) : M S value :=
  len <- lift (length_of objects) ;;
  if strict_equal len (of_Z 0) then ret (Arr [])
  else call db (mkCall (PantryView.table this) "insert" [objects; options]).

Definition save (object : value) : M S value :=
  call db (mkCall (PantryView.table this) "save" [object]).

Definition updateOne (id updates options : value) : M S value :=
  call db (mkCall (PantryView.table this) "update" [id; updates; options]).

Definition update (criteria updates : value) : M S value :=
  if hasEmptyArray criteria then ret (Arr [])
  else call db (mkCall (PantryView.table this) "update" [criteria; updates]).

Definition destroyOne (id : value) : M S value :=
  call db (mkCall (PantryView.table this) "destroy" [id]).

Definition destroy (criteria : value) : M S value :=
  if hasEmptyArray criteria then ret (Arr [])
  else call db (mkCall (PantryView.table this) "destroy" [criteria]).

End Methods.
End PantryTable.

(** The overridable members of a concrete DAO: the abstract [getTable]
    and the three hooks.  [defaultMapper] is what [this.defaultMapper(record)]
    returns; [defaultMapper_unbound] is the same method called as
    [Array.prototype.map] calls a function handed to it, on
    [(row, index, array)] and with no receiver. *)
Record DAO (S : Type) : Type := Build {
  getTable : Eff.Driver S -> Eff.M S (PantryView.t S);
  defaultMapper : Js.value -> Js.value;
  defaultMapper_unbound : Js.value -> nat -> list Js.value -> Js.Outcome Js.value;
  sanitizeInsertRecord : Js.value -> Js.value;
  sanitizeUpdateRecord : Js.value -> Js.value
}.
Arguments Build {S} getTable defaultMapper defaultMapper_unbound
  sanitizeInsertRecord sanitizeUpdateRecord.
Arguments getTable {S} d.
Arguments defaultMapper {S} d.
Arguments defaultMapper_unbound {S} d.
Arguments sanitizeInsertRecord {S} d.
Arguments sanitizeUpdateRecord {S} d.

(** A DAO whose [defaultMapper] is a function of the record alone, as the
    base class's is: it reads neither [this] nor the index and array that
    [map] passes, so it does the same with or without a receiver. *)
Definition mkDAO {S : Type}
    (getTable : Eff.Driver S -> Eff.M S (PantryView.t S))
    (defaultMapper sanitizeInsertRecord sanitizeUpdateRecord : Js.value -> Js.value)
  : DAO S :=
  Build getTable defaultMapper (fun row _ _ => Js.Returned (defaultMapper row))
    sanitizeInsertRecord sanitizeUpdateRecord.

(** A subclass that overrides nothing but [getTable]: the hooks of the base
    classes return their argument. *)
Definition plain_dao {S : Type} (getTable : Eff.Driver S -> Eff.M S (PantryView.t S)) : DAO S :=
  mkDAO getTable (fun record => record) (fun record => record) (fun record => record).

(** [record ? this.defaultMapper(record) : null]. *)
Definition map_or_null (f : Js.value -> Js.value) (record : Js.value) : Js.value :=
  if Js.truthy record then f record else Js.Null.

Module CreateAndReadDAO.
Import Js Eff.
Local Open Scope js_scope.

Section Methods.
Context {S : Type} (this : DAO S) (db : Driver S).

Definition script (scriptName : string) (params : value) : M S value :=
  table <- getTable this db ;;
  f <- lift (PantryView.script table scriptName) ;;
  records <- f params ;;
  ret records.

Definition findById (id : value) : M S value :=
  table <- getTable this db ;;
  record <- PantryView.findOne db table id Undefined ;;
  ret (map_or_null (defaultMapper this) record).

Definition findOneFor (criteria : value) : M S value :=
  table <- getTable this db ;;
  record <- PantryView.findOne db table criteria Undefined ;;
  ret (map_or_null (defaultMapper this) record).

Definition findAll (options : value) : M S value :=
  table <- getTable this db ;;
  records <- PantryView.find db table Undefined options ;;
  lift (array_map_method (defaultMapper_unbound this) records).

Definition findAllFor (criteria options : value) : M S value :=
  table <- getTable this db ;;
  records <- PantryView.find db table criteria options ;;
  lift (array_map_method (defaultMapper_unbound this) records).

Definition count (criteria : value) : M S value :=
  table <- getTable this db ;;
  count <- PantryView.count db table criteria ;;
  let countAsNumber := Number count in
  (if isNaN countAsNumber
   then console_write "error"
          [Str "Massive count returned NaN"; of_Z 500;
           Obj [("count", count); ("countAsNumber", Num countAsNumber);
                ("criteria", criteria)]]
   else ret tt) ;;;
  ret (Num countAsNumber).

Definition insert (record options : value) : M S value :=
  table <- getTable this db ;;
  let sanitizedRecord := sanitizeInsertRecord this record in
  newRecord <- PantryTable.insertOne db table sanitizedRecord options ;;
  ret (map_or_null (defaultMapper this) newRecord).

Definition batchInsert (records : value) : M S value :=
  sanitizedRecords <- lift (array_map (sanitizeInsertRecord this) records) ;;
  table <- getTable this db ;;
  newRecords <- PantryTable.insert db table sanitizedRecords Undefined ;;
  inserted <- lift (length_of newRecords) ;;
  requested <- lift (length_of sanitizedRecords) ;;
  (if negb (strict_equal inserted requested)
   then console_write "warn"
          [Str "Number of inserted records does not match requested number to be inserted";
           Obj [("newRecords", newRecords); ("sanitizedRecords", sanitizedRecords);
                ("records", records)]]
   else ret tt) ;;;
  lift (array_map_method (defaultMapper_unbound this) newRecords).

Definition batchInsertWithIds (records options : value) : M S value :=
  sanitizedRecords <- lift (array_map (sanitizeInsertRecord this) records) ;;
  table <- getTable this db ;;
  newRecords <- PantryTable.insert db table sanitizedRecords options ;;
  lift (array_map_method (defaultMapper_unbound this) newRecords).

Definition save (record : value) : M S value :=
  table <- getTable this db ;;
  let sanitizedRecord := sanitizeInsertRecord this record in
  upsertedRecord <- PantryTable.save db table sanitizedRecord ;;
  ret (map_or_null (defaultMapper this) upsertedRecord).

End Methods.
End CreateAndReadDAO.

Module BaseDAO.
Import Js Eff.
Local Open Scope js_scope.

Section Methods.
Context {S : Type} (this : DAO S) (db : Driver S).

Definition updateById (id record : value) : M S value :=
  table <- getTable this db ;;
  let sanitizedRecord := sanitizeUpdateRecord this record in
  updatedRecord <- PantryTable.updateOne db table id sanitizedRecord Undefined ;;
  ret (map_or_null (defaultMapper this) updatedRecord).

Definition update (criteria record : value) : M S value :=
  table <- getTable this db ;;
  let sanitizedRecord := sanitizeUpdateRecord this record in
  updatedRecord <- PantryTable.update db table criteria sanitizedRecord ;;
  lift (array_map_method (defaultMapper_unbound this) updatedRecord).

Definition removeById (id : value) : M S value :=
  table <- getTable this db ;;
  PantryTable.destroyOne db table id.

Definition removeAllFor (criteria : value) : M S value :=
  table <- getTable this db ;;
  PantryTable.destroy db table criteria.

End Methods.
End BaseDAO.

(* ================================================================== *)
(** ** Form UI: src/ui/src/components/forms/BasicForm.tsx *)
(* ================================================================== *)

Module BasicForm.
Import Js.

Record IngredientFormData : Type := mkFormData {
  name : string;
  unit : string;
  cost_per_unit : string;
  vendor_id : string
}.

(** [Partial<IngredientFormData>]: a key is present or not. *)
Record FormErrors : Type := mkErrors {
  err_name : option string;
  err_unit : option string;
  err_cost_per_unit : option string;
  err_vendor_id : option string
}.

Inductive Severity : Type := success | error.

Record SubmitMessage : Type := mkMessage {
  type : Severity;
  text : value
}.

(** The four state cells of the component. *)
Record State : Type := mkState {
  formData : IngredientFormData;
  errors : FormErrors;
  isSubmitting : bool;
  submitMessage : option SubmitMessage
}.

Definition empty_form : IngredientFormData := mkFormData "" "" "" "".
Definition no_errors : FormErrors := mkErrors None None None None.
Definition initial : State := mkState empty_form no_errors false None.

(** The state setters.  Each call replaces one cell; the calls of a handler
    take effect in program order, so the last value set is the one
    rendered. *)
Definition setFormData (v : IngredientFormData) (st : State) : State :=
  mkState v (errors st) (isSubmitting st) (submitMessage st).
Definition setErrors (v : FormErrors) (st : State) : State :=
  mkState (formData st) v (isSubmitting st) (submitMessage st).
Definition setIsSubmitting (v : bool) (st : State) : State :=
  mkState (formData st) (errors st) v (submitMessage st).
Definition setSubmitMessage (v : option SubmitMessage) (st : State) : State :=
  mkState (formData st) (errors st) (isSubmitting st) v.

(** The alert shown to the user: [submitMessage && <Alert ...>]. *)
Definition notice_shown (st : State) : option SubmitMessage := submitMessage st.

Definition is_empty (s : string) : bool := String.eqb s "".

Definition validate_cost (cost_per_unit : string) : option string :=
  if is_empty (trim cost_per_unit) then Some "Cost per unit is required"
  else
    let cost := parseFloat cost_per_unit in
    if (isNaN cost || lt cost zero)%bool then Some "Please enter a valid positive number"
    else None.

(** The [newErrors] object that [validateForm] builds. *)
Definition newErrors (d : IngredientFormData) : FormErrors :=
  mkErrors
    (if is_empty (trim (name d)) then Some "Ingredient name is required" else None)
    (if is_empty (unit d) then Some "Unit is required" else None)
    (validate_cost (cost_per_unit d))
    (if is_empty (vendor_id d) then Some "Vendor is required" else None).

(** [Object.keys(newErrors).length === 0]. *)
Definition no_keys (e : FormErrors) : bool :=
  match err_name e, err_unit e, err_cost_per_unit e, err_vendor_id e with
  | None, None, None, None => true
  | _, _, _, _ => false
  end.

Definition validateForm (st : State) : bool * State :=
  let e := newErrors (formData st) in
  (no_keys e, setErrors e st).

Definition handleClear (st : State) : State :=
  setSubmitMessage None (setErrors no_errors (setFormData empty_form st)).

(** What [fetch] is called with; the body, a JSON text, is kept as the
    value a JSON parser reads from it. *)
Record Request : Type := mkRequest {
  url : string;
  http_method : string;
  payload : value
}.

(** The response object: its status and what [response.json()] settles to. *)
Record FetchResponse : Type := mkFetchResponse {
  http_status : Z;
  json : Outcome value
}.

(** [response.ok]. *)
Definition ok (r : FetchResponse) : bool :=
  ((200 <=? http_status r) && (http_status r <=? 299))%bool.

(** The promise [fetch] returns resolves with a response or rejects. *)
Inductive FetchOutcome : Type :=
| Resolved (r : FetchResponse)
| Rejected (e : value).

Definition submit_request (d : IngredientFormData) : Request :=
  mkRequest "http://localhost:5001/ingredient" "POST"
    (through_JSON
       (Obj [("name", Str (trim (name d)));
             ("unit", Str (unit d));
             ("cost_per_unit", Num (parseFloat (cost_per_unit d)));
             ("vendor_id", Num (parseInt (vendor_id d)))])).

Definition network_error : SubmitMessage :=
  mkMessage error (Str "Network error. Please try again.").

Definition added : SubmitMessage :=
  mkMessage success (Str "Ingredient added successfully!").

(** [errorData.message || 'Failed to add ingredient']. *)
Definition message_or_fallback (m : value) : value :=
  if truthy m then m else Str "Failed to add ingredient".

(** The body of the [try] after the fetch has settled; [None] when control
    passes to the [catch] block. *)
Definition after_fetch (outcome : FetchOutcome) (st : State) : option State :=
  match outcome with
  | Rejected _ => None
  | Resolved response =>
      if ok response then
        Some (handleClear (setSubmitMessage (Some added) st))
      else
        match json response with
        | Threw _ => None
        | Returned errorData =>
            match get errorData "message" with
            | Threw _ => None
            | Returned m =>
                Some (setSubmitMessage (Some (mkMessage error (message_or_fallback m))) st)
            end
        end
  end.

(** [handleSubmit]: the state once the handler has run to its end, and the
    requests it issued. *)
Definition handleSubmit (fetch : Request -> FetchOutcome) (st : State)
  : State * list Request :=
  let '(valid, st) := validateForm st in
  if negb valid then (st, [])
  else
    let st := setSubmitMessage None (setIsSubmitting true st) in
    let request := submit_request (formData st) in
    let st :=
      match after_fetch (fetch request) st with
      | Some st' => st'
      | None => setSubmitMessage (Some network_error) st
      end in
    (setIsSubmitting false st, [request]).

End BasicForm.

(* ================================================================== *)
(** ** Drivers to run the embedding on *)
(* ================================================================== *)

(** An in-memory driver with the two tables the router touches.  [find]
    lists a table, [findOne] looks a row up by its [id] and answers null
    when there is none, [insert] gives the record the next identity and
    appends it.  It serves to evaluate the handlers on concrete requests. *)
Module MemDb.
Import Js Eff.

Record Store : Type := mkStore {
  entity : list value;
  ingredient : list value;
  next_id : Z
}.

Definition rows (table : string) (s : Store) : list value :=
  if String.eqb table "entity" then entity s
  else if String.eqb table "ingredient" then ingredient s
  else [].

Definition has_id (id row : value) : bool :=
  match get row "id" with
  | Returned v => strict_equal v id
  | Threw _ => false
  end.

Definition findOne (table : string) (id : value) (s : Store) : value :=
  match List.find (has_id id) (rows table s) with
  | Some row => row
  | None => Null
  end.

Definition driver : Driver Store :=
  fun c s =>
    if String.eqb (method c) "find" then (Returned (Arr (rows (target c) s)), s)
    else if String.eqb (method c) "findOne" then
      match args c with
      | [id] => (Returned (findOne (target c) id s), s)
      | _ => (Threw (new_Error "findOne: one argument expected"), s)
      end
    else if (String.eqb (method c) "insert" && String.eqb (target c) "ingredient")%bool then
      match args c with
      | [Obj props] =>
          let row := Obj (("id", of_Z (next_id s)) :: props) in
          (Returned row, mkStore (entity s) (ingredient s ++ [row]) (next_id s + 1))
      | _ => (Threw (new_Error "insert: one record expected"), s)
      end
    else (Threw (new_Error "unsupported call"), s).

Definition vendor1 : value :=
  Obj [("id", of_Z 1); ("fname", Str "Local"); ("lname", Str "Farm");
       ("email", Str "farm@example.org"); ("phone", Str "555-0100");
       ("type", Str "vendor")].

Definition one_vendor : Store := mkStore [vendor1] [] 1.

End MemDb.

(** Drivers that answer every call the same way, and leave the persisted
    state alone. *)
Module StubDb.
Import Js Eff.

Definition answering (v : value) : Driver unit := fun _ s => (Returned v, s).

Definition failing (e : value) : Driver unit := fun _ s => (Threw e, s).

End StubDb.

(* ================================================================== *)
(** ** Vocabulary of the specification *)
(* ================================================================== *)

Module RouterSpec.
Import Js Eff IngredientRouter.

Definition find_vendor (vendor_id : value) : Call := mkCall "entity" "findOne" [vendor_id].

Definition insert_ingredient (record : value) : Call := mkCall "ingredient" "insert" [record].

Definition find_ingredient (id : number) : Call := mkCall "ingredient" "findOne" [Num id].

(** A request body, read field by field as the handler's destructuring
    does. *)
Definition has_fields (req_body name unit cost_per_unit vendor_id : value) : Prop :=
  get req_body "name" = Returned name
  /\ get req_body "unit" = Returned unit
  /\ get req_body "cost_per_unit" = Returned cost_per_unit
  /\ get req_body "vendor_id" = Returned vendor_id.

(** The body [{ name, unit, cost_per_unit, vendor_id }]. *)
Definition ingredient_request (name unit cost_per_unit vendor_id : value) : value :=
  Obj [("name", name); ("unit", unit);
       ("cost_per_unit", cost_per_unit); ("vendor_id", vendor_id)].

(** The handler answers 400 with this message and touches nothing. *)
Definition rejects {S : Type} (db : Driver S) (w : World S) (req_body : value)
    (text : string) : Prop :=
  post db req_body w = (Returned (mkResponse 400 (Obj [("message", Str text)])), w).

(** The required-fields guard lets the body through. *)
Definition required_present (name unit cost_per_unit vendor_id : value) : Prop :=
  truthy name = true /\ truthy unit = true
  /\ cost_per_unit <> Undefined /\ truthy vendor_id = true.

(** Not a number, or a number below zero. *)
Definition not_nonneg_number (v : value) : Prop :=
  forall n, v = Num n -> lt n zero = true.

(** Not a number, or a number that is zero or below. *)
Definition not_positive_number (v : value) : Prop :=
  forall n, v = Num n -> le n zero = true.

(* ------------------------------------------------------------------ *)
(** *** The runs of the POST handler *)

Definition logged_error {S : Type} (w : World S) (e : value) : list ConsoleEntry :=
  console w ++ [mkConsole "error" [Str "Error creating ingredient:"; e]].

Definition internal_error : Response :=
  mkResponse 500 (Obj [("message", Str msg_internal)]).

(** Every way the handler can run from [w]: where it stops, what it
    answers and the world it leaves. *)
Inductive PostRun {S : Type} (db : Driver S) (w : World S) : Response -> World S -> Prop :=
| run_invalid (text : string) :
    PostRun db w (mkResponse 400 (message text)) w
| run_no_body (e : value) :
    PostRun db w internal_error (mkWorld (store w) (calls w) (logged_error w e))
| run_lookup_threw (vendor_id e : value) (s1 : S) :
    db (find_vendor vendor_id) (store w) = (Threw e, s1) ->
    PostRun db w internal_error
      (mkWorld s1 (calls w ++ [find_vendor vendor_id]) (logged_error w e))
| run_vendor_absent (vendor_id vendor : value) (s1 : S) :
    db (find_vendor vendor_id) (store w) = (Returned vendor, s1) ->
    truthy vendor = false ->
    PostRun db w (mkResponse 400 (message msg_vendor_missing))
      (mkWorld s1 (calls w ++ [find_vendor vendor_id]) (console w))
| run_insert_threw (vendor_id vendor record e : value) (s1 s2 : S) :
    db (find_vendor vendor_id) (store w) = (Returned vendor, s1) ->
    db (insert_ingredient record) s1 = (Threw e, s2) ->
    PostRun db w internal_error
      (mkWorld s2 (calls w ++ [find_vendor vendor_id; insert_ingredient record])
         (logged_error w e))
| run_created (vendor_id vendor record row : value) (s1 s2 : S) :
    db (find_vendor vendor_id) (store w) = (Returned vendor, s1) ->
    db (insert_ingredient record) s1 = (Returned row, s2) ->
    PostRun db w (mkResponse 201 (created_envelope row))
      (mkWorld s2 (calls w ++ [find_vendor vendor_id; insert_ingredient record])
         (console w)).

End RouterSpec.

Module PantrySpec.
Import Js Eff.

(** A criteria object one of whose fields is mapped to the empty array. *)
Definition has_empty_field (criteria : value) : Prop :=
  exists props field, criteria = Obj props /\ In (field, Arr []) props.

(** Criteria that lodash does not take for an array: no field named
    [length], or one whose value is not a length. *)
Definition not_array_like (criteria : value) : Prop :=
  match criteria with
  | Obj props => array_like_length props = None
  | _ => True
  end.

(** The hook does the same without a receiver as with one, and ignores the
    index and the array: a [defaultMapper] that does not read [this]. *)
Definition receiver_free {S : Type} (dao : DAO S) : Prop :=
  forall row index array,
    defaultMapper_unbound dao row index array = Returned (defaultMapper dao row).

(** Criteria for a table with a numeric [length] column. *)
Definition criteria_with_length : value :=
  Obj [("length", of_Z 0); ("genre_id", Arr [])].

(** A DAO whose [defaultMapper] is overridden to trim the row's name. *)
Definition trim_name (record : value) : value :=
  match get record "name" with
  | Returned (Str s) => Obj (assign (own_props record) "name" (Str (trim s)))
  | _ => record
  end.

Definition trimming_dao : DAO unit :=
  mkDAO (fun _ => ret (PantryView.mk "ingredient" None (Obj [])))
    trim_name (fun record => record) (fun record => record).

Definition padded_row : value := Obj [("id", of_Z 7); ("name", Str " Salt ")].

End PantrySpec.

Module FormSpec.
Import Js BasicForm.

(** The form passes client-side validation. *)
Definition valid (st : State) : Prop := fst (validateForm st) = true.

(** The state in which the request is sent: validation has stored its
    (empty) error object, the spinner is on and the old notice is gone. *)
Definition submitting (st : State) : State :=
  mkState (formData st) (newErrors (formData st)) true None.

Definition salt_form : State :=
  mkState (mkFormData "Salt" "g" "1" "1") no_errors false None.

Definition created_response : FetchResponse :=
  mkFetchResponse 201
    (Returned (Obj [("message", Str "Ingredient created successfully");
                    ("ingredient", Obj [("id", of_Z 1); ("name", Str "Salt")])])).

End FormSpec.
(* ================================================================== *)
(** ** The form's change handler, and further vocabulary *)
(* ================================================================== *)

(** [handleInputChange] of BasicForm.tsx. *)
Module BasicFormInput.
Import Js BasicForm.

(** [keyof IngredientFormData]. *)
Inductive Field : Type :=
| field_name
| field_unit
| field_cost_per_unit
| field_vendor_id.

(** [data[field]]. *)
Definition read (field : Field) (d : IngredientFormData) : string :=
  match field with
  | field_name => name d
  | field_unit => unit d
  | field_cost_per_unit => cost_per_unit d
  | field_vendor_id => vendor_id d
  end.

(** [{ ...prev, [field]: value }] on the form data. *)
Definition write (field : Field) (value : string) (prev : IngredientFormData)
  : IngredientFormData :=
  match field with
  | field_name => mkFormData value (unit prev) (cost_per_unit prev) (vendor_id prev)
  | field_unit => mkFormData (name prev) value (cost_per_unit prev) (vendor_id prev)
  | field_cost_per_unit => mkFormData (name prev) (unit prev) value (vendor_id prev)
  | field_vendor_id => mkFormData (name prev) (unit prev) (cost_per_unit prev) value
  end.

(** [errors[field]]. *)
Definition error_of (field : Field) (e : FormErrors) : option string :=
  match field with
  | field_name => err_name e
  | field_unit => err_unit e
  | field_cost_per_unit => err_cost_per_unit e
  | field_vendor_id => err_vendor_id e
  end.

(** [{ ...prev, [field]: text }] on the errors. *)
Definition write_error (field : Field) (text : string) (prev : FormErrors) : FormErrors :=
  match field with
  | field_name =>
      mkErrors (Some text) (err_unit prev) (err_cost_per_unit prev) (err_vendor_id prev)
  | field_unit =>
      mkErrors (err_name prev) (Some text) (err_cost_per_unit prev) (err_vendor_id prev)
  | field_cost_per_unit =>
      mkErrors (err_name prev) (err_unit prev) (Some text) (err_vendor_id prev)
  | field_vendor_id =>
      mkErrors (err_name prev) (err_unit prev) (err_cost_per_unit prev) (Some text)
  end.

(** The truthiness of [errors[field]], which decides both the guard of the
    handler and whether the field is drawn in error ([!!errors.name]). *)
Definition in_error (field : Field) (e : FormErrors) : bool :=
  match error_of field e with
  | Some text => negb (is_empty text)
  | None => false
  end.

(** [handleInputChange(field)(event)], on [event.target.value]. *)
Definition handleInputChange (field : Field) (value : string) (st : State) : State :=
  let st' := setFormData (write field value (formData st)) st in
  if in_error field (errors st)
  then setErrors (write_error field "" (errors st')) st'
  else st'.

End BasicFormInput.

Module MoreSpec.
Import Js Eff.

(** The decimal text of a natural number, as a driver or a URL carries
    it. *)
Definition decimal_text (n : nat) : string :=
  NilEmpty.string_of_uint (Nat.to_uint n).

Definition of_nat (n : nat) : number := Finite (inject_Z (Z.of_nat n)).

(** A natural number up to [2^53]: below that bound every integer is a
    double, so no conversion rounds it. *)
Definition exact (n : nat) : Prop := Z.of_nat n <= 2 ^ 53.

(** Only white space. *)
Definition blank (s : string) : Prop :=
  forallb is_whitespace (list_ascii_of_string s) = true.

(** The calls made between two worlds. *)
Definition new_calls {S : Type} (w w' : World S) : list Call :=
  skipn (List.length (calls w)) (calls w').

(** The console entries written between two worlds. *)
Definition new_console {S : Type} (w w' : World S) : list ConsoleEntry :=
  skipn (List.length (console w)) (console w').

(** Nothing, or something that starts with a character other than white
    space. *)
Definition starts_clean (cs : list ascii) : Prop :=
  match cs with
  | [] => True
  | c :: _ => is_whitespace c = false
  end.

(** The characters a decimal text is made of. *)
Definition dec_digit (c : ascii) : bool :=
  match digit_of 10 c with
  | Some _ => true
  | None => false
  end.

Definition uint_chars (d : Decimal.uint) : list ascii :=
  list_ascii_of_string (NilEmpty.string_of_uint d).

End MoreSpec.

Module RouterMoreSpec.
Import Js Eff IngredientRouter RouterSpec.

Definition list_ingredients : Call := mkCall "ingredient" "find" [].

Definition logged (label : string) (e : value) : ConsoleEntry :=
  mkConsole "error" [Str label; e].

(** A body that passes every check. *)
Definition well_formed (req_body : value) (name unit : string)
    (cost_per_unit vendor_id : number) : Prop :=
  has_fields req_body (Str name) (Str unit) (Num cost_per_unit) (Num vendor_id)
  /\ name <> "" /\ unit <> ""
  /\ lt cost_per_unit zero = false
  /\ lt zero vendor_id = true.

Definition checked_record (name unit : string) (cost_per_unit vendor_id : number) : value :=
  insert_record (Str (trim name)) (Str unit) (Num cost_per_unit) (Num vendor_id).

End RouterMoreSpec.

Module PantryMoreSpec.
Import Js Eff.

Definition keys (props : list (string * value)) : list string := map fst props.

Definition put (acc : list (string * value)) (kv : string * value) :=
  assign acc (fst kv) (snd kv).

Definition mismatch_warning (newRecords sanitizedRecords records : value) : ConsoleEntry :=
  mkConsole "warn"
    [Str "Number of inserted records does not match requested number to be inserted";
     Obj [("newRecords", newRecords); ("sanitizedRecords", sanitizedRecords);
          ("records", records)]].

End PantryMoreSpec.

Module FormMoreSpec.

(** The vendors the form's menu offers. *)
Definition vendor_menu : list string := ["1"; "2"; "3"; "4"].

End FormMoreSpec.

Module JsExamples.
Import Js.

Example trim_tomatoes : trim " Tomatoes " = "Tomatoes".
Proof. reflexivity. Qed.

Example parseInt_abc : parseInt "abc" = NaN.
Proof. reflexivity. Qed.

Example parseInt_prefix : parseInt " 12px" = Finite (inject_Z 12).
Proof. reflexivity. Qed.

Example parseInt_hex : parseInt "-0x1F" = Finite (inject_Z (-31)).
Proof. reflexivity. Qed.

Example parseFloat_price : parseFloat "2.50" = Finite (5 # 2).
Proof. reflexivity. Qed.

Example parseFloat_exp : parseFloat "1.5e2abc" = Finite (inject_Z 150).
Proof. reflexivity. Qed.

Example parseFloat_dot : parseFloat "." = NaN.
Proof. reflexivity. Qed.

Example Number_count : Number (Str "42") = Finite (inject_Z 42).
Proof. reflexivity. Qed.

Example Number_null : Number Null = zero.
Proof. reflexivity. Qed.

Example Number_junk : Number (Str "12px") = NaN.
Proof. reflexivity. Qed.

Example Number_zero_string : Number (Str "0") = zero.
Proof. reflexivity. Qed.

Example spread_override :
  spread2 (Obj [("limit", of_Z 10); ("offset", of_Z 0)]) (Obj [("limit", of_Z 5)])
  = Obj [("limit", of_Z 5); ("offset", of_Z 0)].
Proof. reflexivity. Qed.

Example spread_undefined : spread2 (Obj []) Undefined = Obj [].
Proof. reflexivity. Qed.

End JsExamples.

(* ================================================================== *)
(** ** Facts about numbers *)
(* ================================================================== *)

Module NumberFacts.
Import Js.

Lemma nonneg_not_lt_zero (n : number) : le zero n = true -> lt n zero = false.
Proof.
  destruct n as [| [] | q]; simpl; try discriminate; try reflexivity.
  intros H. rewrite H. reflexivity.
Qed.

Lemma pos_not_le_zero (n : number) : lt zero n = true -> le n zero = false.
Proof.
  destruct n as [| [] | q]; simpl; try discriminate; try reflexivity.
  intros H. apply negb_true_iff in H. exact H.
Qed.

Lemma pos_truthy (n : number) : lt zero n = true -> truthy (Num n) = true.
Proof.
  destruct n as [| [] | q]; simpl; try discriminate; try reflexivity.
  intros H. apply negb_true_iff in H. apply negb_true_iff.
  destruct (Qeq_bool q 0) eqn:E; [| reflexivity].
  apply Qeq_bool_iff in E.
  assert (Hle : (q <= 0)%Q) by (rewrite E; apply Qle_refl).
  apply Qle_bool_iff in Hle. congruence.
Qed.

Lemma neg_truthy (n : number) : lt n zero = true -> truthy (Num n) = true.
Proof.
  destruct n as [| [] | q]; simpl; try discriminate; try reflexivity.
  intros H. apply negb_true_iff in H. apply negb_true_iff.
  destruct (Qeq_bool q 0) eqn:E; [| reflexivity].
  apply Qeq_bool_iff in E.
  assert (Hle : (0 <= q)%Q) by (rewrite E; apply Qle_refl).
  apply Qle_bool_iff in Hle. congruence.
Qed.

Lemma neg_le_zero (n : number) : lt n zero = true -> le n zero = true.
Proof.
  destruct n as [| [] | q]; simpl; try discriminate; try reflexivity.
  intros H. apply negb_true_iff in H.
  destruct (Qle_bool q 0) eqn:E; [reflexivity |].
  destruct (Qlt_le_dec 0 q) as [Hlt | Hle].
  - apply Qlt_le_weak in Hlt. apply Qle_bool_iff in Hlt. congruence.
  - apply Qle_bool_iff in Hle. congruence.
Qed.

Lemma typeof_string (v : value) : String.eqb (typeof v) "string" = is_string v.
Proof. destruct v; reflexivity. Qed.

Lemma typeof_number (v : value) : String.eqb (typeof v) "number" = is_number v.
Proof. destruct v; reflexivity. Qed.

Lemma nonempty_truthy (s : string) : s <> "" -> truthy (Str s) = true.
Proof.
  intros H. simpl. destruct (String.eqb_spec s ""); [contradiction | reflexivity].
Qed.

End NumberFacts.


(* ================================================================== *)
(** ** The ingredient routes *)
(* ================================================================== *)

Module RouterFacts.
Import Js Eff IngredientRouter NumberFacts RouterSpec.

Ltac run_handler :=
  unfold post, get_by_id, get_all, try_catch, bind, lift, call, ret, console_write;
  simpl.

Ltac read_types := rewrite ?typeof_string, ?typeof_number.

(** C1. A POST whose body carries non-empty strings [name] and [unit], a
    non-negative number [cost_per_unit] and a positive number [vendor_id],
    and whose vendor lookup answers an entity row, calls the insert with
    the record (trimmed name, unit, cost_per_unit, vendor_id) -- the other
    three exactly as received -- and answers 201 with the envelope
    [{ message, ingredient }] around the row the insert returned.  The two
    driver calls made are the lookup and then the insert. *)
Theorem post_creates_trimmed
  (S : Type) (db : Driver S) (w : World S) (req_body : value)
  (name unit : string) (cost_per_unit vendor_id : number)
  (vendor row : value) (s1 s2 : S) :
  has_fields req_body (Str name) (Str unit) (Num cost_per_unit) (Num vendor_id) ->
  name <> "" ->
  unit <> "" ->
  le zero cost_per_unit = true ->
  lt zero vendor_id = true ->
  db (find_vendor (Num vendor_id)) (store w) = (Returned vendor, s1) ->
  truthy vendor = true ->
  let record :=
    insert_record (Str (trim name)) (Str unit) (Num cost_per_unit) (Num vendor_id) in
  db (insert_ingredient record) s1 = (Returned row, s2) ->
  post db req_body w =
    (Returned (mkResponse 201 (Obj [("message", Str msg_created); ("ingredient", row)])),
     mkWorld s2
       (calls w ++ [find_vendor (Num vendor_id); insert_ingredient record])
       (console w)).
Proof.
  intros (Hn & Hu & Hc & Hv) Hname Hunit Hcost Hvid Hfind Hvendor record Hins.
  run_handler. rewrite Hn, Hu, Hc, Hv.
  pose proof (nonempty_truthy name Hname) as Tn.
  pose proof (nonempty_truthy unit Hunit) as Tu.
  pose proof (pos_truthy vendor_id Hvid) as Tv.
  rewrite Tn, Tu, Tv. simpl.
  rewrite (nonneg_not_lt_zero _ Hcost), (pos_not_le_zero _ Hvid).
  unfold find_vendor in Hfind. rewrite Hfind. rewrite Hvendor. simpl.
  unfold insert_ingredient, record in Hins. rewrite Hins.
  rewrite <- app_assoc. reflexivity.
Qed.

(** C1 on the in-memory driver: with vendor 1 present, posting
    [{name:" Tomatoes ", unit:"lb", cost_per_unit:2.5, vendor_id:1}] stores
    and returns the row named "Tomatoes". *)
Lemma post_creates_trimmed_witness :
  post MemDb.driver
    (Obj [("name", Str " Tomatoes "); ("unit", Str "lb");
          ("cost_per_unit", Num (Finite (5 # 2))); ("vendor_id", of_Z 1)])
    (init MemDb.one_vendor)
  = (let row := Obj [("id", of_Z 1); ("name", Str "Tomatoes"); ("unit", Str "lb");
                     ("cost_per_unit", Num (Finite (5 # 2))); ("vendor_id", of_Z 1)] in
     (Returned (mkResponse 201 (Obj [("message", Str msg_created); ("ingredient", row)])),
      mkWorld (MemDb.mkStore [MemDb.vendor1] [row] 2)
        [find_vendor (of_Z 1);
         insert_ingredient (Obj [("name", Str "Tomatoes"); ("unit", Str "lb");
                                 ("cost_per_unit", Num (Finite (5 # 2)));
                                 ("vendor_id", of_Z 1)])]
        [])).
Proof.
  apply (post_creates_trimmed MemDb.Store MemDb.driver (init MemDb.one_vendor) _
           " Tomatoes " "lb" (Finite (5 # 2)) (Finite (inject_Z 1))
           MemDb.vendor1 _ MemDb.one_vendor _).
  - repeat split.
  - discriminate.
  - discriminate.
  - reflexivity.
  - reflexivity.
  - reflexivity.
  - reflexivity.
  - reflexivity.
Defined.

(** C5. GET /ingredient/:id: a path parameter that [parseInt] turns into
    NaN is answered 400 "Invalid ingredient ID" without a lookup; one that
    parses to a number is looked up, and when the lookup answers no row the
    response is 404 "Ingredient not found", while a row is answered with
    status 200 and the row itself as the body, with no envelope. *)
Theorem get_by_id_responses
  (S : Type) (db : Driver S) (w : World S) (id_param : string) :
  (parseInt id_param = NaN ->
   get_by_id db id_param w
   = (Returned (mkResponse 400 (Obj [("message", Str "Invalid ingredient ID")])), w))
  /\ (forall (row : value) (s' : S),
        parseInt id_param <> NaN ->
        db (find_ingredient (parseInt id_param)) (store w) = (Returned row, s') ->
        let w' := mkWorld s' (calls w ++ [find_ingredient (parseInt id_param)]) (console w) in
        (truthy row = false ->
         get_by_id db id_param w
         = (Returned (mkResponse 404 (Obj [("message", Str "Ingredient not found")])), w'))
        /\ (truthy row = true ->
            get_by_id db id_param w = (Returned (mkResponse 200 row), w'))).
Proof.
  split.
  - intros H. run_handler. rewrite H. reflexivity.
  - intros row s' Hn Hfind w'. unfold find_ingredient in Hfind.
    assert (Hnan : isNaN (parseInt id_param) = false)
      by (destruct (parseInt id_param); [contradiction | reflexivity | reflexivity]).
    split; intros Hrow; run_handler; rewrite Hnan, Hfind, Hrow; reflexivity.
Qed.

(** C5 on the in-memory driver: "abc" is 400, the absent id 999999 is 404,
    and with an ingredient stored under id 7 a GET of "7" returns that row
    bare. *)
Lemma get_by_id_responses_witness :
  let tomato := Obj [("id", of_Z 7); ("name", Str "Tomatoes")] in
  let s := MemDb.mkStore [] [tomato] 8 in
  fst (get_by_id MemDb.driver "abc" (init s))
    = Returned (mkResponse 400 (Obj [("message", Str "Invalid ingredient ID")]))
  /\ fst (get_by_id MemDb.driver "999999" (init s))
     = Returned (mkResponse 404 (Obj [("message", Str "Ingredient not found")]))
  /\ fst (get_by_id MemDb.driver "7" (init s)) = Returned (mkResponse 200 tomato).
Proof.
  intros tomato s. split; [| split].
  - rewrite (proj1 (get_by_id_responses MemDb.Store MemDb.driver (init s) "abc"));
      reflexivity.
  - destruct (proj2 (get_by_id_responses MemDb.Store MemDb.driver (init s) "999999")
                Null s) as [H _]; [discriminate | reflexivity |].
    rewrite H; reflexivity.
  - destruct (proj2 (get_by_id_responses MemDb.Store MemDb.driver (init s) "7")
                tomato s) as [_ H]; [discriminate | reflexivity |].
    rewrite H; reflexivity.
Defined.

(** C4, refuted as stated: with every other field valid, a [vendor_id] of
    0 -- a non-positive number -- is answered with the missing-fields
    message, not the vendor-id message. *)
Lemma post_vendor_id_zero_reported_missing :
  le (Finite 0) zero = true
  /\ post MemDb.driver
       (ingredient_request (Str "Salt") (Str "g") (of_Z 1) (Num (Finite 0)))
       (init MemDb.one_vendor)
     = (Returned (mkResponse 400
          (Obj [("message",
                 Str "Missing required fields: name, unit, cost_per_unit, vendor_id")])),
        init MemDb.one_vendor)
  /\ msg_missing <> msg_vendor_id.
Proof.
  split; [reflexivity | split; [reflexivity | discriminate]].
Qed.

(** C4, amended.  On a body that passes the required-fields guard ([name],
    [unit] and [vendor_id] truthy, [cost_per_unit] not undefined) the first
    type violation, in the order checked, is answered 400 with its own
    message and nothing is looked up or inserted: [name] or [unit] not a
    string; else [cost_per_unit] not a number or below zero; else
    [vendor_id] not a number or not above zero.  In particular a negative
    numeric [vendor_id], the other fields being valid, receives the
    vendor-id message; a [vendor_id] of 0 is falsy and is answered by the
    guard with the missing-fields message.  The four messages differ. *)
Theorem post_type_violations (S : Type) (db : Driver S) (w : World S) :
  (forall req_body name unit cost_per_unit vendor_id,
      has_fields req_body name unit cost_per_unit vendor_id ->
      required_present name unit cost_per_unit vendor_id ->
      ((is_string name = false \/ is_string unit = false) ->
       rejects db w req_body "Name and unit must be strings")
      /\ (is_string name = true -> is_string unit = true ->
          not_nonneg_number cost_per_unit ->
          rejects db w req_body "Cost per unit must be a positive number")
      /\ (is_string name = true -> is_string unit = true ->
          (exists c, cost_per_unit = Num c /\ lt c zero = false) ->
          not_positive_number vendor_id ->
          rejects db w req_body "Vendor ID must be a positive number"))
  /\ (forall req_body (name unit : string) (cost_per_unit vendor_id : number),
        has_fields req_body (Str name) (Str unit) (Num cost_per_unit) (Num vendor_id) ->
        name <> "" -> unit <> "" ->
        le zero cost_per_unit = true ->
        lt vendor_id zero = true ->
        rejects db w req_body "Vendor ID must be a positive number")
  /\ (forall req_body name unit cost_per_unit,
        has_fields req_body name unit cost_per_unit (Num zero) ->
        rejects db w req_body
          "Missing required fields: name, unit, cost_per_unit, vendor_id")
  /\ NoDup [msg_missing; msg_strings; msg_cost; msg_vendor_id].
Proof.
  assert (General : forall req_body name unit cost_per_unit vendor_id,
      has_fields req_body name unit cost_per_unit vendor_id ->
      required_present name unit cost_per_unit vendor_id ->
      ((is_string name = false \/ is_string unit = false) ->
       rejects db w req_body "Name and unit must be strings")
      /\ (is_string name = true -> is_string unit = true ->
          not_nonneg_number cost_per_unit ->
          rejects db w req_body "Cost per unit must be a positive number")
      /\ (is_string name = true -> is_string unit = true ->
          (exists c, cost_per_unit = Num c /\ lt c zero = false) ->
          not_positive_number vendor_id ->
          rejects db w req_body "Vendor ID must be a positive number")).
  { intros req_body name unit cost vid (Hn & Hu & Hc & Hv) (Tn & Tu & Dc & Tv).
    assert (Uc : is_undefined cost = false) by (destruct cost; auto; contradiction).
    unfold rejects. repeat split.
    - intros Hs. run_handler. rewrite Hn, Hu, Hc, Hv. read_types.
      rewrite Tn, Tu, Uc, Tv. simpl.
      destruct Hs as [Hs | Hs]; rewrite Hs; simpl; [| rewrite orb_true_r]; reflexivity.
    - intros Sn Su Hcost. run_handler. rewrite Hn, Hu, Hc, Hv. read_types.
      rewrite Tn, Tu, Uc, Tv, Sn, Su. simpl.
      destruct cost; try reflexivity. simpl. rewrite (Hcost n eq_refl). reflexivity.
    - intros Sn Su (c & -> & Hc0) Hvid. run_handler. rewrite Hn, Hu, Hc, Hv. read_types.
      rewrite Tn, Tu, Tv, Sn, Su. simpl. rewrite Hc0.
      destruct vid; try reflexivity. simpl. rewrite (Hvid n eq_refl). reflexivity. }
  split; [exact General | split; [| split]].
  - intros req_body name unit cost vid Hf Hname Hunit Hcost Hvid.
    apply (General req_body (Str name) (Str unit) (Num cost) (Num vid) Hf).
    + repeat split; auto using nonempty_truthy, neg_truthy. discriminate.
    + reflexivity.
    + reflexivity.
    + exists cost. split; [reflexivity | apply nonneg_not_lt_zero; exact Hcost].
    + intros n [= <-]. apply neg_le_zero. exact Hvid.
  - intros req_body name unit cost (Hn & Hu & Hc & Hv). unfold rejects.
    run_handler. rewrite Hn, Hu, Hc, Hv. simpl.
    rewrite !orb_true_r. reflexivity.
  - unfold msg_missing, msg_strings, msg_cost, msg_vendor_id.
    repeat constructor; simpl; intuition discriminate.
Qed.

(** C4 amended, on the in-memory driver: a [vendor_id] of -1 with valid
    name, unit and cost is answered with the vendor-id message. *)
Lemma post_type_violations_witness :
  post MemDb.driver
    (ingredient_request (Str "Salt") (Str "g") (of_Z 1) (of_Z (-1)))
    (init MemDb.one_vendor)
  = (Returned (mkResponse 400 (Obj [("message", Str "Vendor ID must be a positive number")])),
     init MemDb.one_vendor).
Proof.
  apply (proj1 (proj2 (post_type_violations MemDb.Store MemDb.driver (init MemDb.one_vendor)))
           _ "Salt" "g" (Finite (inject_Z 1)) (Finite (inject_Z (-1)))).
  - repeat split.
  - discriminate.
  - discriminate.
  - reflexivity.
  - reflexivity.
Defined.

(** The handler always answers, and its run is one of the above. *)
Lemma post_runs (S : Type) (db : Driver S) (req_body : value) (w : World S) :
  exists resp w', post db req_body w = (Returned resp, w') /\ PostRun db w resp w'.
Proof.
  run_handler.
  destruct (get req_body "name") as [name | e];
    [| eexists; eexists; split; [reflexivity | apply run_no_body]].
  destruct (get req_body "unit") as [unit | e];
    [| eexists; eexists; split; [reflexivity | apply run_no_body]].
  destruct (get req_body "cost_per_unit") as [cost | e];
    [| eexists; eexists; split; [reflexivity | apply run_no_body]].
  destruct (get req_body "vendor_id") as [vid | e];
    [| eexists; eexists; split; [reflexivity | apply run_no_body]].
  destruct (negb (truthy name) || negb (truthy unit) || is_undefined cost
            || negb (truthy vid))%bool;
    [eexists; eexists; split; [reflexivity | apply run_invalid] |].
  read_types.
  destruct (negb (is_string name) || negb (is_string unit))%bool eqn:Hstr;
    [eexists; eexists; split; [reflexivity | apply run_invalid] |].
  destruct (negb (is_number cost) || lt (Number cost) zero)%bool;
    [eexists; eexists; split; [reflexivity | apply run_invalid] |].
  destruct (negb (is_number vid) || le (Number vid) zero)%bool;
    [eexists; eexists; split; [reflexivity | apply run_invalid] |].
  destruct (db (mkCall "entity" "findOne" [vid]) (store w)) as [[vendor | e] s1] eqn:Hfind.
  - destruct (truthy vendor) eqn:Hv; simpl.
    + destruct name; simpl in Hstr; try discriminate. simpl.
      match goal with
      | |- context [db ?c s1] => destruct (db c s1) as [[row | e] s2] eqn:Hins
      end.
      * eexists; eexists; split; [reflexivity |].
        rewrite <- app_assoc. simpl. eapply run_created; eassumption.
      * eexists; eexists; split; [reflexivity |].
        rewrite <- app_assoc. simpl. eapply run_insert_threw; eassumption.
    + eexists; eexists; split; [reflexivity |].
      eapply run_vendor_absent; eassumption.
  - eexists; eexists; split; [reflexivity |]. simpl.
    eapply run_lookup_threw; eassumption.
Qed.

(** C3. Whenever the POST handler answers 400 -- a missing field, a type
    violation or a vendor lookup that finds no row -- the only call it can
    have made is the vendor lookup, never an insert, so with a driver whose
    lookups do not write the persisted state is as before.  And in every
    run, an insert call is preceded by the vendor lookup. *)
Theorem post_rejected_persists_nothing
  (S : Type) (db : Driver S) (req_body : value) (w w' : World S) (resp : Response) :
  post db req_body w = (Returned resp, w') ->
  (status resp = 400 ->
     (calls w' = calls w \/ exists vendor_id, calls w' = (calls w ++ [find_vendor vendor_id])%list)
     /\ (forall c, In c (skipn (List.length (calls w)) (calls w')) -> method c <> "insert")
     /\ (lookups_read_only db -> store w' = store w))
  /\ (forall before c after,
        calls w' = (calls w ++ before ++ c :: after)%list ->
        method c = "insert" ->
        exists vendor_id, In (find_vendor vendor_id) before).
Proof.
  intros Hpost.
  destruct (post_runs S db req_body w) as (resp0 & w0 & Hrun & Hshape).
  rewrite Hrun in Hpost. injection Hpost as <- <-.
  assert (Hskip : forall l : list Call, skipn (List.length (calls w)) (calls w ++ l) = l).
  { intros l. rewrite skipn_app, skipn_all, Nat.sub_diag. reflexivity. }
  assert (Hnil : skipn (List.length (calls w)) (calls w) = []) by apply skipn_all.
  split.
  - intros H400.
    inversion Hshape; subst; simpl in *; try discriminate.
    + split; [| split]; [left; reflexivity | rewrite Hnil; intros c [] | reflexivity].
    + split; [| split].
      * right. eexists. reflexivity.
      * rewrite Hskip. intros c [<- | []]. discriminate.
      * intros Hro.
        match goal with
        | H : db ?c (store w) = _ |- _ =>
            pose proof (Hro c (store w) (or_intror (or_introl eq_refl))) as E;
            rewrite H in E; exact E
        end.
  - intros before c after Hcalls Hm.
    inversion Hshape; subst; simpl in Hcalls.
    1, 2: (apply (f_equal (@List.length Call)) in Hcalls;
           rewrite !length_app in Hcalls; simpl in Hcalls; lia).
    1, 2: (apply app_inv_head in Hcalls;
           destruct before as [| b [| ? ?]]; simpl in Hcalls;
           [injection Hcalls as <- _; discriminate
           | injection Hcalls as _ Habs; discriminate
           | injection Hcalls as _ Habs; discriminate]).
    1, 2: (apply app_inv_head in Hcalls;
           destruct before as [| b before']; simpl in Hcalls;
           [injection Hcalls as <- _; discriminate
           | injection Hcalls as <- _; eexists; left; reflexivity]).
Qed.

(** C3 on the in-memory driver: a POST naming the absent vendor 9 is
    answered 400, makes the lookup only, and leaves the store as it was. *)
Lemma post_rejected_persists_nothing_witness :
  let req := ingredient_request (Str "Salt") (Str "g") (of_Z 1) (of_Z 9) in
  let w := init MemDb.one_vendor in
  let w' := mkWorld MemDb.one_vendor [find_vendor (of_Z 9)] [] in
  post MemDb.driver req w = (Returned (mkResponse 400 (message msg_vendor_missing)), w')
  /\ (forall c, In c (calls w') -> method c <> "insert")
  /\ store w' = store w.
Proof.
  intros req w w'.
  assert (Hrun : post MemDb.driver req w
                 = (Returned (mkResponse 400 (message msg_vendor_missing)), w'))
    by reflexivity.
  destruct (post_rejected_persists_nothing MemDb.Store MemDb.driver req w w' _ Hrun)
    as [H400 _].
  destruct (H400 eq_refl) as (_ & Hno & Hstore).
  split; [exact Hrun | split; [exact Hno |]].
  apply Hstore. intros c s Hm. unfold MemDb.driver.
  destruct Hm as [-> | [-> | ->]]; simpl; try reflexivity.
  destruct (args c) as [| ? [| ? ?]]; reflexivity.
Defined.

(* ------------------------------------------------------------------ *)
(** *** Scenarios on the in-memory driver *)

(** A row created by POST is the row a GET of its id returns. *)
Example post_then_get_round_trip :
  let req := ingredient_request (Str " Tomatoes ") (Str "lb")
               (Num (Finite (5 # 2))) (of_Z 1) in
  let row := Obj [("id", of_Z 1); ("name", Str "Tomatoes"); ("unit", Str "lb");
                  ("cost_per_unit", Num (Finite (5 # 2))); ("vendor_id", of_Z 1)] in
  let '(created, w1) := post MemDb.driver req (init MemDb.one_vendor) in
  created = Returned (mkResponse 201 (created_envelope row))
  /\ fst (get_by_id MemDb.driver "1" w1) = Returned (mkResponse 200 row)
  /\ fst (get_all MemDb.driver w1) = Returned (mkResponse 200 (Arr [row])).
Proof. repeat split. Qed.

Example negative_cost_is_rejected :
  fst (post MemDb.driver
         (ingredient_request (Str "Salt") (Str "g") (of_Z (-1)) (of_Z 1))
         (init MemDb.one_vendor))
  = Returned (mkResponse 400 (message "Cost per unit must be a positive number")).
Proof. reflexivity. Qed.

(** [parseInt] reads a numeric prefix: "12abc" is looked up as 12. *)
Example numeric_prefix_is_looked_up :
  snd (get_by_id MemDb.driver "12abc" (init MemDb.one_vendor))
  = mkWorld MemDb.one_vendor [find_ingredient (Finite (inject_Z 12))] [].
Proof. reflexivity. Qed.

Example missing_body_is_internal_error :
  fst (post MemDb.driver Undefined (init MemDb.one_vendor))
  = Returned (mkResponse 500 (message "Internal server error")).
Proof. reflexivity. Qed.

End RouterFacts.

(* ================================================================== *)
(** ** The data-access layer *)
(* ================================================================== *)

Module PantryFacts.
Import Js Eff PantrySpec.

Lemma has_empty_field_detected (criteria : value) :
  has_empty_field criteria ->
  not_array_like criteria ->
  truthy criteria = true /\ hasEmptyArray criteria = true.
Proof.
  intros (props & field & -> & Hin) Hplain. split; [reflexivity |].
  unfold hasEmptyArray, some. simpl in Hplain. rewrite Hplain.
  apply existsb_exists.
  exists (Arr []). split; [| reflexivity].
  apply in_map_iff. exists (field, Arr []). split; [reflexivity | exact Hin].
Qed.

(** X30. For criteria with a field mapped to an empty array, and which
    lodash does not take for an array (no numeric [length] field), [find]
    returns the empty list and [count] returns zero -- as the count text
    "0" from PantryView, which is the table's own format, and as the number
    0 from [CreateAndReadDAO.count] -- and the [update] and [destroy] of
    PantryTable return the empty list; in each the world is left as it was,
    so no call reached the underlying table. *)
Theorem empty_array_short_circuits
  (S : Type) (db : Driver S) (this : PantryView.t S)
  (criteria options updates : value) (w : World S) :
  has_empty_field criteria ->
  not_array_like criteria ->
  PantryView.find db this criteria options w = (Returned (Arr []), w)
  /\ PantryView.count db this criteria w = (Returned (Str "0"), w)
  /\ (forall (dao : DAO S) (w0 : World S),
        getTable dao db w0 = (Returned this, w) ->
        CreateAndReadDAO.count dao db criteria w0 = (Returned (Num zero), w))
  /\ PantryTable.update db this criteria updates w = (Returned (Arr []), w)
  /\ PantryTable.destroy db this criteria w = (Returned (Arr []), w).
Proof.
  intros H Hplain. destruct (has_empty_field_detected criteria H Hplain) as [Ht He].
  assert (Hcount : PantryView.count db this criteria w = (Returned (Str "0"), w))
    by (unfold PantryView.count; rewrite Ht, He; reflexivity).
  unfold PantryView.find, PantryTable.update, PantryTable.destroy.
  rewrite Ht, He. simpl. repeat split; try exact Hcount.
  intros dao w0 Hget. unfold CreateAndReadDAO.count, bind. rewrite Hget, Hcount.
  simpl. destruct w; reflexivity.
Qed.

(** On a driver that would throw on any call: the criteria [{ id: [] }]
    never reach it. *)
Lemma empty_array_short_circuits_witness :
  let db := StubDb.failing (new_Error "syntax error at or near )") in
  let table := PantryView.mk "ingredient" None (Obj []) in
  let criteria := Obj [("vendor_id", of_Z 1); ("id", Arr [])] in
  PantryView.find db table criteria Undefined (init tt) = (Returned (Arr []), init tt)
  /\ PantryView.count db table criteria (init tt) = (Returned (Str "0"), init tt).
Proof.
  intros db table criteria.
  destruct (empty_array_short_circuits unit db table criteria Undefined Undefined (init tt))
    as (Hfind & Hcount & _).
  - exists [("vendor_id", of_Z 1); ("id", Arr [])], "id".
    split; [reflexivity | right; left; reflexivity].
  - reflexivity.
  - split; [exact Hfind | exact Hcount].
Defined.

(** C2, evaluated.  The criteria [{ length: 0, genre_id: [] }] have a
    field mapped to the empty array, yet the guard does not see it: lodash
    takes an object with a numeric [length] for an array and reads it at
    its indices only, here none.  [find], [count], [update] and [destroy]
    all make their call, and the table's error for the empty list comes
    back; without the [length] field the same criteria are short-circuited
    and no call is made. *)
Theorem length_field_defeats_the_guard :
  let table : PantryView.t unit := PantryView.mk "track" None (Obj []) in
  let db := StubDb.failing (new_Error "syntax error at or near )") in
  let failed (c : Call) : Outcome value * World unit :=
    (Threw (new_Error "syntax error at or near )"), mkWorld tt [c] []) in
  has_empty_field criteria_with_length
  /\ hasEmptyArray criteria_with_length = false
  /\ PantryView.find db table criteria_with_length Undefined (init tt)
     = failed (mkCall "track" "find" [criteria_with_length; Obj []])
  /\ PantryView.count db table criteria_with_length (init tt)
     = failed (mkCall "track" "count" [criteria_with_length])
  /\ PantryTable.update db table criteria_with_length (Obj [("genre_id", of_Z 2)]) (init tt)
     = failed (mkCall "track" "update" [criteria_with_length; Obj [("genre_id", of_Z 2)]])
  /\ PantryTable.destroy db table criteria_with_length (init tt)
     = failed (mkCall "track" "destroy" [criteria_with_length])
  /\ PantryView.find db table (Obj [("genre_id", Arr [])]) Undefined (init tt)
     = (Returned (Arr []), init tt).
Proof.
  intros table db failed. split.
  - exists [("length", of_Z 0); ("genre_id", Arr [])], "genre_id".
    split; [reflexivity | right; left; reflexivity].
  - repeat split.
Qed.

(** C10. [findOne] has no empty-array guard and drops its [options]:
    whatever the criteria -- an object with an empty-array field included
    -- and whatever the options, it makes exactly the call
    [table.findOne(criteria)], with the criteria as its only argument, and
    returns what the table answers. *)
Theorem findOne_passes_criteria_through
  (S : Type) (db : Driver S) (this : PantryView.t S)
  (criteria options : value) (w : World S) :
  let c := mkCall (PantryView.table this) "findOne" [criteria] in
  PantryView.findOne db this criteria options w
  = (fst (db c (store w)), mkWorld (snd (db c (store w))) (calls w ++ [c]) (console w))
  /\ (forall options', PantryView.findOne db this criteria options' w
                       = PantryView.findOne db this criteria options w).
Proof.
  intros c. split; [| reflexivity].
  unfold PantryView.findOne, call. fold c. destruct (db c (store w)). reflexivity.
Qed.

Lemma not_own_property {A : Type} (defined : list (string * A)) (k : string) :
  ~ In k (map fst defined) -> hasOwnProperty defined k = false.
Proof.
  intros H. unfold hasOwnProperty.
  destruct (existsb (fun kv => String.eqb k (fst kv)) defined) eqn:E; [| reflexivity].
  apply existsb_exists in E. destruct E as ([k' f] & Hin & Heq).
  apply String.eqb_eq in Heq. simpl in Heq. subst k'.
  exfalso. apply H. apply in_map_iff. exists (k, f). split; [reflexivity | exact Hin].
Qed.

(** Without a scripts object the accessor throws as well, for any name. *)
Lemma script_without_scripts_object (S : Type) (this : PantryView.t S) (scriptName : string) :
  PantryView.scripts this = None ->
  PantryView.script this scriptName = Threw (new_Error "No scripts available for this table").
Proof.
  intros H. unfold PantryView.script. rewrite H. reflexivity.
Qed.

(** C9. On a table that has a scripts object, asking for a script name
    that is not among the object's own properties throws -- an Error whose
    message, "Script <name> does not exist on this table", names the
    missing script -- and the DAO's [script] fails with that same error
    before any script runs or any call is made. *)
Theorem script_undefined_name_throws
  (S : Type) (this : PantryView.t S) (defined : list (string * PantryView.Script S))
  (scriptName : string) :
  PantryView.scripts this = Some defined ->
  ~ In scriptName (map fst defined) ->
  PantryView.script this scriptName
  = Threw (Obj [("name", Str "Error");
                ("message", Str ("Script " ++ scriptName ++ " does not exist on this table"))])
  /\ (forall (dao : DAO S) (db : Driver S) (params : value) (w w1 : World S),
        getTable dao db w = (Returned this, w1) ->
        CreateAndReadDAO.script dao db scriptName params w
        = (Threw (new_Error ("Script " ++ scriptName ++ " does not exist on this table")), w1)).
Proof.
  intros Hs Hnot.
  assert (E : PantryView.script this scriptName
              = Threw (new_Error ("Script " ++ scriptName ++ " does not exist on this table"))).
  { unfold PantryView.script. rewrite Hs, (not_own_property defined scriptName Hnot).
    reflexivity. }
  split; [exact E |].
  intros dao db params w w1 Hget.
  unfold CreateAndReadDAO.script, bind, lift. rewrite Hget, E. reflexivity.
Qed.

(** C9 on a table whose only script is "byVendor": asking for "byName"
    throws the error that names it. *)
Lemma script_undefined_name_throws_witness :
  let byVendor : PantryView.Script unit := fun _ => ret (Arr []) in
  PantryView.script (PantryView.mk "ingredient" (Some [("byVendor", byVendor)]) (Obj []))
    "byName"
  = Threw (Obj [("name", Str "Error");
                ("message", Str "Script byName does not exist on this table")]).
Proof.
  intros byVendor.
  refine (proj1 (script_undefined_name_throws unit
                   (PantryView.mk "ingredient" (Some [("byVendor", byVendor)]) (Obj []))
                   [("byVendor", byVendor)] "byName" eq_refl _)).
  simpl. intros [E | []]. discriminate E.
Defined.

(** C8. When the table's count is a value that [Number] turns into NaN,
    [CreateAndReadDAO.count] writes one console error carrying the count
    and the criteria, and returns NaN; it does not throw. *)
Theorem count_not_a_number_is_logged
  (S : Type) (dao : DAO S) (db : Driver S) (criteria counted : value)
  (table : PantryView.t S) (w w1 w2 : World S) :
  getTable dao db w = (Returned table, w1) ->
  PantryView.count db table criteria w1 = (Returned counted, w2) ->
  Number counted = NaN ->
  CreateAndReadDAO.count dao db criteria w
  = (Returned (Num NaN),
     mkWorld (store w2) (calls w2)
       (console w2 ++
        [mkConsole "error"
           [Str "Massive count returned NaN"; of_Z 500;
            Obj [("count", counted); ("countAsNumber", Num NaN);
                 ("criteria", criteria)]]])).
Proof.
  intros Hget Hcount Hnan.
  unfold CreateAndReadDAO.count, bind. rewrite Hget, Hcount, Hnan. reflexivity.
Qed.

(** C8 on a driver whose count answers "many". *)
Lemma count_not_a_number_is_logged_witness :
  let table : PantryView.t unit := PantryView.mk "ingredient" None (Obj []) in
  let dao := plain_dao (fun _ => ret table) in
  fst (CreateAndReadDAO.count dao (StubDb.answering (Str "many")) (Obj []) (init tt))
  = Returned (Num NaN).
Proof.
  intros table dao.
  rewrite (count_not_a_number_is_logged unit dao (StubDb.answering (Str "many")) (Obj [])
             (Str "many") table (init tt) (init tt)
             (mkWorld tt [mkCall "ingredient" "count" [Obj []]] []));
    reflexivity.
Defined.

(* ------------------------------------------------------------------ *)
(** *** The row hook of the base DAO *)

(** [map] over a hook that needs no receiver gives the rows mapped. *)
Lemma map_callback_receiver_free {S : Type} (dao : DAO S)
    (array items : list value) (index : nat) :
  receiver_free dao ->
  map_callback (defaultMapper_unbound dao) array index items
  = Returned (map (defaultMapper dao) items).
Proof.
  intros Hfree. revert index.
  induction items as [| item rest IH]; intros index; simpl; [reflexivity |].
  rewrite Hfree, IH. reflexivity.
Qed.

Section Mapped.
Context {S : Type} (dao : DAO S) (db : Driver S) (table : PantryView.t S).
Context (w w1 w2 : World S).
Hypothesis Htable : getTable dao db w = (Returned table, w1).
Hypothesis Hfree : receiver_free dao.

(** X20. The single-row reads and writes hand the row they got to
    [defaultMapper]. *)
Lemma single_row_operations_map (record id criteria options : value) :
  (PantryView.findOne db table id Undefined w1 = (Returned record, w2) ->
   CreateAndReadDAO.findById dao db id w
   = (Returned (map_or_null (defaultMapper dao) record), w2))
  /\ (PantryView.findOne db table criteria Undefined w1 = (Returned record, w2) ->
      CreateAndReadDAO.findOneFor dao db criteria w
      = (Returned (map_or_null (defaultMapper dao) record), w2))
  /\ (forall given,
        PantryTable.insertOne db table (sanitizeInsertRecord dao given) options w1
        = (Returned record, w2) ->
        CreateAndReadDAO.insert dao db given options w
        = (Returned (map_or_null (defaultMapper dao) record), w2))
  /\ (forall given,
        PantryTable.save db table (sanitizeInsertRecord dao given) w1
        = (Returned record, w2) ->
        CreateAndReadDAO.save dao db given w
        = (Returned (map_or_null (defaultMapper dao) record), w2))
  /\ (forall given,
        PantryTable.updateOne db table id (sanitizeUpdateRecord dao given) Undefined w1
        = (Returned record, w2) ->
        BaseDAO.updateById dao db id given w
        = (Returned (map_or_null (defaultMapper dao) record), w2)).
Proof.
  unfold CreateAndReadDAO.findById, CreateAndReadDAO.findOneFor, CreateAndReadDAO.insert,
    CreateAndReadDAO.save, BaseDAO.updateById, bind, ret.
  rewrite Htable.
  repeat split; intros; match goal with H : _ = (Returned record, w2) |- _ => rewrite H end;
    reflexivity.
Qed.

(** X21. With a [defaultMapper] that does not read [this] -- the list
    methods hand it to [map] without its receiver -- the list reads and
    writes return the rows they got with the hook applied to each, in
    order. *)
Lemma list_operations_map (records : list value) (criteria options : value) :
  (PantryView.find db table Undefined options w1 = (Returned (Arr records), w2) ->
   CreateAndReadDAO.findAll dao db options w
   = (Returned (Arr (map (defaultMapper dao) records)), w2))
  /\ (PantryView.find db table criteria options w1 = (Returned (Arr records), w2) ->
      CreateAndReadDAO.findAllFor dao db criteria options w
      = (Returned (Arr (map (defaultMapper dao) records)), w2))
  /\ (forall given,
        PantryTable.update db table criteria (sanitizeUpdateRecord dao given) w1
        = (Returned (Arr records), w2) ->
        BaseDAO.update dao db criteria given w
        = (Returned (Arr (map (defaultMapper dao) records)), w2)).
Proof.
  unfold CreateAndReadDAO.findAll, CreateAndReadDAO.findAllFor, BaseDAO.update,
    bind, lift.
  rewrite Htable.
  repeat split; intros; match goal with H : _ = (Returned (Arr records), w2) |- _ => rewrite H end;
    unfold array_map_method; rewrite (map_callback_receiver_free dao _ _ _ Hfree);
    reflexivity.
Qed.

(** The two removals return the table's answer as it is. *)
Lemma removals_return_table_answer (id criteria : value) :
  BaseDAO.removeById dao db id w = PantryTable.destroyOne db table id w1
  /\ BaseDAO.removeAllFor dao db criteria w = PantryTable.destroy db table criteria w1.
Proof.
  unfold BaseDAO.removeById, BaseDAO.removeAllFor, bind. rewrite Htable. split; reflexivity.
Qed.

End Mapped.

(** [batchInsert] maps the hook over the inserted rows. *)
Lemma batchInsert_maps
  (S : Type) (dao : DAO S) (db : Driver S) (table : PantryView.t S)
  (given inserted : list value) (w w1 w2 : World S) :
  getTable dao db w = (Returned table, w1) ->
  receiver_free dao ->
  PantryTable.insert db table (Arr (map (sanitizeInsertRecord dao) given)) Undefined w1
  = (Returned (Arr inserted), w2) ->
  fst (CreateAndReadDAO.batchInsert dao db (Arr given) w)
  = Returned (Arr (map (defaultMapper dao) inserted)).
Proof.
  intros Hget Hfree Hins.
  unfold CreateAndReadDAO.batchInsert, bind, lift, array_map, array_map_method, length_of.
  rewrite Hget, Hins, (map_callback_receiver_free dao _ _ _ Hfree).
  destruct (negb _); reflexivity.
Qed.

(** A [defaultMapper] that reads [this] has none when [map] calls it: if
    it throws on the first row without a receiver, [findAll] throws that
    error as soon as the table answers a row. *)
Lemma findAll_throws_with_unbound_hook
  (S : Type) (dao : DAO S) (db : Driver S) (table : PantryView.t S)
  (row e options : value) (others : list value) (w w1 w2 : World S) :
  getTable dao db w = (Returned table, w1) ->
  PantryView.find db table Undefined options w1 = (Returned (Arr (row :: others)), w2) ->
  defaultMapper_unbound dao row 0 (row :: others) = Threw e ->
  CreateAndReadDAO.findAll dao db options w = (Threw e, w2).
Proof.
  intros Hget Hfind Hthrow.
  unfold CreateAndReadDAO.findAll, bind, lift, array_map_method.
  rewrite Hget, Hfind. simpl. rewrite Hthrow. reflexivity.
Qed.

(** C7, evaluated.  With [defaultMapper] overridden to trim names and a
    table that answers the padded row, [updateById] and [findById] return
    the row mapped, while [removeById] returns the row as the table gave it
    and [removeAllFor] returns the unmapped list: the two removals never
    call the hook. *)
Theorem removals_skip_defaultMapper :
  let mapped := Obj [("id", of_Z 7); ("name", Str "Salt")] in
  trim_name padded_row = mapped
  /\ padded_row <> mapped
  /\ fst (CreateAndReadDAO.findById trimming_dao (StubDb.answering padded_row)
            (of_Z 7) (init tt)) = Returned mapped
  /\ fst (BaseDAO.updateById trimming_dao (StubDb.answering padded_row)
            (of_Z 7) (Obj [("unit", Str "g")]) (init tt)) = Returned mapped
  /\ fst (BaseDAO.removeById trimming_dao (StubDb.answering padded_row)
            (of_Z 7) (init tt)) = Returned padded_row
  /\ fst (BaseDAO.update trimming_dao (StubDb.answering (Arr [padded_row]))
            (Obj [("id", of_Z 7)]) (Obj [("unit", Str "g")]) (init tt))
     = Returned (Arr [mapped])
  /\ fst (BaseDAO.removeAllFor trimming_dao (StubDb.answering (Arr [padded_row]))
            (Obj [("id", of_Z 7)]) (init tt))
     = Returned (Arr [padded_row]).
Proof.
  intros mapped. repeat split. discriminate.
Qed.

End PantryFacts.

(* ================================================================== *)
(** ** The ingredient form *)
(* ================================================================== *)

Module FormFacts.
Import Js BasicForm FormSpec.

Lemma handleSubmit_sends (fetch : Request -> FetchOutcome) (st : State) :
  valid st ->
  handleSubmit fetch st
  = (setIsSubmitting false
       (match after_fetch (fetch (submit_request (formData st))) (submitting st) with
        | Some st' => st'
        | None => setSubmitMessage (Some network_error) (submitting st)
        end),
     [submit_request (formData st)]).
Proof.
  unfold valid, handleSubmit, validateForm. simpl. intros ->. reflexivity.
Qed.

(** After a 2xx response the handler sets the success notice and then
    calls [handleClear], which resets the notice with the form: the state
    left is the cleared form with nothing to show. *)
Lemma handleSubmit_2xx (fetch : Request -> FetchOutcome) (st : State) (r : FetchResponse) :
  valid st ->
  fetch (submit_request (formData st)) = Resolved r ->
  ok r = true ->
  fst (handleSubmit fetch st) = mkState empty_form no_errors false None.
Proof.
  intros Hv Hf Hok. rewrite (handleSubmit_sends fetch st Hv), Hf.
  unfold after_fetch. rewrite Hok. reflexivity.
Qed.

(** X26. After a non-2xx response whose body parses to an object, the server's
    message -- or the fallback when it has none -- is shown as an error and
    the fields keep what the user typed. *)
Lemma handleSubmit_non_2xx (fetch : Request -> FetchOutcome) (st : State)
    (r : FetchResponse) (errorData m : value) :
  valid st ->
  fetch (submit_request (formData st)) = Resolved r ->
  ok r = false ->
  json r = Returned errorData ->
  get errorData "message" = Returned m ->
  let st' := fst (handleSubmit fetch st) in
  notice_shown st'
  = Some (mkMessage error (if truthy m then m else Str "Failed to add ingredient"))
  /\ formData st' = formData st.
Proof.
  intros Hv Hf Hok Hj Hm. simpl. rewrite (handleSubmit_sends fetch st Hv), Hf.
  unfold after_fetch. rewrite Hok, Hj, Hm. split; reflexivity.
Qed.

(** X27. When the fetch rejects, the network-error notice is shown and the
    fields keep what the user typed. *)
Lemma handleSubmit_rejected (fetch : Request -> FetchOutcome) (st : State) (e : value) :
  valid st ->
  fetch (submit_request (formData st)) = Rejected e ->
  let st' := fst (handleSubmit fetch st) in
  notice_shown st' = Some (mkMessage error (Str "Network error. Please try again."))
  /\ formData st' = formData st.
Proof.
  intros Hv Hf. simpl. rewrite (handleSubmit_sends fetch st Hv), Hf.
  split; reflexivity.
Qed.

(** An invalid form is not sent. *)
Lemma handleSubmit_blocked (fetch : Request -> FetchOutcome) (st : State) :
  fst (validateForm st) = false ->
  handleSubmit fetch st = (setErrors (newErrors (formData st)) st, []).
Proof.
  unfold handleSubmit, validateForm. simpl. intros ->. reflexivity.
Qed.

(** C6, evaluated.  The form (Salt, g, 1, vendor 1) passes validation and
    the fetch resolves with 201.  The fields are cleared, but no notice is
    shown: [handleClear], called right after the success notice is set,
    sets [submitMessage] back to null. *)
Theorem handleSubmit_success_shows_no_notice :
  let fetch := fun _ : Request => Resolved created_response in
  fst (validateForm salt_form) = true
  /\ ok created_response = true
  /\ handleSubmit fetch salt_form
     = (mkState empty_form no_errors false None,
        [mkRequest "http://localhost:5001/ingredient" "POST"
           (Obj [("name", Str "Salt"); ("unit", Str "g");
                 ("cost_per_unit", of_Z 1); ("vendor_id", of_Z 1)])])
  /\ notice_shown (fst (handleSubmit fetch salt_form)) = None
  /\ notice_shown (setSubmitMessage (Some added) salt_form) = Some added
  /\ notice_shown (handleClear (setSubmitMessage (Some added) salt_form)) = None.
Proof.
  repeat split.
Qed.

Example empty_unit_is_blocked :
  handleSubmit (fun _ => Rejected Undefined)
    (mkState (mkFormData "Salt" "" "1" "1") no_errors false None)
  = (mkState (mkFormData "Salt" "" "1" "1")
       (mkErrors None (Some "Unit is required") None None) false None,
     []).
Proof. reflexivity. Qed.

End FormFacts.

(* ================================================================== *)
(** ** Facts about the built-ins *)
(* ================================================================== *)

Module JsFacts.
Import Js MoreSpec.

(* ------------------------------------------------------------------ *)
(** *** trim *)

Lemma trimStart_split (cs : list ascii) :
  exists ws, cs = (ws ++ trimStart_chars cs)%list /\ forallb is_whitespace ws = true.
Proof.
  induction cs as [| c cs IH]; simpl.
  - exists []. split; reflexivity.
  - destruct (is_whitespace c) eqn:E.
    + destruct IH as (ws & Heq & Hws). exists (c :: ws). simpl.
      rewrite E, Hws. split; [f_equal; exact Heq | reflexivity].
    + exists []. split; reflexivity.
Qed.

Lemma trimStart_clean (cs : list ascii) : starts_clean (trimStart_chars cs).
Proof.
  induction cs as [| c cs IH]; simpl; [exact I |].
  destruct (is_whitespace c) eqn:E; [exact IH | exact E].
Qed.

Lemma trimStart_fixed (cs : list ascii) : starts_clean cs -> trimStart_chars cs = cs.
Proof.
  destruct cs as [| c cs]; simpl; [reflexivity |]. intros ->. reflexivity.
Qed.

Lemma trimStart_blank (cs : list ascii) :
  forallb is_whitespace cs = true -> trimStart_chars cs = [].
Proof.
  induction cs as [| c cs IH]; simpl; [reflexivity |].
  intros H. apply andb_true_iff in H. destruct H as [-> H]. apply IH, H.
Qed.

(** What [trim_chars] leaves starts clean. *)
Lemma trim_chars_starts_clean (cs : list ascii) : starts_clean (trim_chars cs).
Proof.
  unfold trim_chars, trimEnd_chars.
  pose proof (trimStart_clean cs) as Ha. set (a := trimStart_chars cs) in *.
  destruct (trimStart_split (rev a)) as (ws & Heq & _).
  set (t := trimStart_chars (rev a)) in *.
  apply (f_equal (@rev ascii)) in Heq. rewrite rev_involutive, rev_app_distr in Heq.
  destruct (rev t) as [| c b]; [exact I |].
  rewrite Heq in Ha. exact Ha.
Qed.

(** What [trim_chars] leaves ends clean. *)
Lemma trim_chars_ends_clean (cs : list ascii) : starts_clean (rev (trim_chars cs)).
Proof.
  unfold trim_chars, trimEnd_chars. rewrite rev_involutive. apply trimStart_clean.
Qed.

Lemma trim_chars_fixed (cs : list ascii) :
  starts_clean cs -> starts_clean (rev cs) -> trim_chars cs = cs.
Proof.
  intros H1 H2. unfold trim_chars, trimEnd_chars.
  rewrite (trimStart_fixed cs H1), (trimStart_fixed (rev cs) H2). apply rev_involutive.
Qed.

Lemma trim_chars_idempotent (cs : list ascii) : trim_chars (trim_chars cs) = trim_chars cs.
Proof.
  apply trim_chars_fixed; [apply trim_chars_starts_clean | apply trim_chars_ends_clean].
Qed.

Lemma trim_idempotent (s : string) : trim (trim s) = trim s.
Proof.
  unfold trim. rewrite list_ascii_of_string_of_list_ascii, trim_chars_idempotent.
  reflexivity.
Qed.

Lemma trim_blank (s : string) : blank s -> trim s = "".
Proof.
  unfold blank, trim, trim_chars, trimEnd_chars. intros H.
  rewrite (trimStart_blank _ H). reflexivity.
Qed.

(* ------------------------------------------------------------------ *)
(** *** Decimal text *)

Lemma dec_digit_plain (c : ascii) :
  dec_digit c = true ->
  is_whitespace c = false
  /\ is_char c "-" = false /\ is_char c "+" = false /\ is_char c "." = false
  /\ is_char c "x" = false /\ is_char c "X" = false
  /\ is_char c "o" = false /\ is_char c "O" = false
  /\ is_char c "b" = false /\ is_char c "B" = false
  /\ is_char c "e" = false /\ is_char c "E" = false
  /\ Ascii.eqb "I"%char c = false.
Proof.
  destruct c as [[] [] [] [] [] [] [] []]; vm_compute; intros H;
    try discriminate H; repeat split.
Qed.

Lemma uint_chars_digits (d : Decimal.uint) : forallb dec_digit (uint_chars d) = true.
Proof.
  unfold uint_chars. induction d; simpl; try reflexivity; exact IHd.
Qed.

Lemma take_digits_uint (d : Decimal.uint) (acc len : nat) :
  take_digits 10 (uint_chars d) (Z.of_nat acc) len
  = (Z.of_nat (Nat.of_uint_acc d acc), (len + Decimal.nb_digits d)%nat, []).
Proof.
  unfold uint_chars. revert acc len.
  induction d; intros acc len; simpl NilEmpty.string_of_uint; simpl list_ascii_of_string;
    simpl Nat.of_uint_acc; simpl Decimal.nb_digits;
    [ simpl; rewrite Nat.add_0_r; reflexivity | .. ];
    cbn [take_digits];
    match goal with
    | |- context [digit_of 10 ?c] =>
        let v := eval vm_compute in (digit_of 10 c) in change (digit_of 10 c) with v
    end;
    cbv iota beta;
    match goal with
    | |- take_digits _ _ ?z _ = (Z.of_nat (Nat.of_uint_acc d ?a), _, _) =>
        replace z with (Z.of_nat a) by (rewrite Nat.tail_mul_spec; lia)
    end;
    rewrite IHd; f_equal; f_equal; lia.
Qed.

Lemma to_uint_digits (n : nat) : (0 < Decimal.nb_digits (Nat.to_uint n))%nat.
Proof.
  destruct (Nat.to_uint n) eqn:E; simpl; try lia.
  pose proof (DecimalNat.Unsigned.of_to n) as H. rewrite E in H. simpl in H. subst n.
  discriminate E.
Qed.

Lemma decimal_chars (n : nat) :
  exists c rest,
    list_ascii_of_string (decimal_text n) = c :: rest
    /\ forallb dec_digit (c :: rest) = true
    /\ take_digits 10 (c :: rest) 0 0
       = (Z.of_nat n, Decimal.nb_digits (Nat.to_uint n), []).
Proof.
  unfold decimal_text.
  pose proof (uint_chars_digits (Nat.to_uint n)) as Hd.
  pose proof (take_digits_uint (Nat.to_uint n) 0 0) as Ht.
  pose proof (to_uint_digits n) as Hn.
  change (Nat.of_uint_acc (Nat.to_uint n) 0) with (Nat.of_uint (Nat.to_uint n)) in Ht.
  rewrite DecimalNat.Unsigned.of_to in Ht. simpl in Ht.
  unfold uint_chars in *.
  destruct (list_ascii_of_string (NilEmpty.string_of_uint (Nat.to_uint n))) as [| c rest].
  - simpl in Ht. injection Ht as _ Hz. lia.
  - exists c, rest. repeat split; assumption.
Qed.

(* ------------------------------------------------------------------ *)
(** *** Rounding *)

Lemma round_half_even_exact (x d : Z) : 0 < d -> round_half_even (x * d) d = x.
Proof.
  intros Hd. unfold round_half_even.
  rewrite Z.div_mul, Z.mod_mul by lia.
  replace (2 * 0 <? d) with true by (symmetry; apply Z.ltb_lt; lia). reflexivity.
Qed.

Lemma Qred_scaled (z j : Z) :
  0 <= j -> Qred (Qmake (z * 2 ^ j) (Z.to_pos (2 ^ j))) = inject_Z z.
Proof.
  intros Hj.
  assert (Hp : 0 < 2 ^ j) by (apply Z.pow_pos_nonneg; lia).
  transitivity (Qred (inject_Z z)).
  - apply Qred_complete. unfold Qeq, inject_Z. simpl. rewrite Z2Pos.id by lia. lia.
  - apply Qcanon.Qred_iff. simpl. apply Z.gcd_1_r.
Qed.

Lemma double_of_small_integer (z : Z) :
  0 < z <= 2 ^ 53 -> double_of_positive z 1 = Finite (inject_Z z).
Proof.
  intros Hz.
  assert (Hk : 0 <= Z.log2 z <= 53).
  { split; [apply Z.log2_nonneg |].
    replace 53 with (Z.log2 (2 ^ 53)) by reflexivity. apply Z.log2_le_mono. lia. }
  assert (Hspec := Z.log2_spec z ltac:(lia)).
  unfold double_of_positive, floor_log2.
  change (Z.log2 1) with 0. rewrite Z.sub_0_r.
  replace (0 <=? Z.log2 z) with true by (symmetry; apply Z.leb_le; lia).
  replace (1 * 2 ^ Z.log2 z <=? z) with true by (symmetry; apply Z.leb_le; lia).
  rewrite Z.max_l by lia.
  destruct (Z.leb_spec 0 (Z.log2 z - 52)) as [He | He].
  - assert (Hcase : Z.log2 z = 52 \/ (Z.log2 z = 53 /\ z = 2 ^ 53)).
    { destruct (Z.eq_dec (Z.log2 z) 52) as [E | E]; [left; exact E | right].
      assert (E53 : Z.log2 z = 53) by lia. split; [exact E53 |].
      rewrite E53 in Hspec. lia. }
    destruct Hcase as [E | [E ->]].
    + rewrite E. change (52 - 52) with 0. change (2 ^ 0) with 1.
      rewrite Z.mul_1_l, Z.mul_1_r.
      pose proof (round_half_even_exact z 1 ltac:(lia)) as R. rewrite Z.mul_1_r in R.
      rewrite R.
      replace (z =? 0) with false by (symmetry; apply Z.eqb_neq; lia).
      rewrite E. reflexivity.
    + reflexivity.
  - set (j := 52 - Z.log2 z).
    replace (- (Z.log2 z - 52)) with j by (unfold j; lia).
    assert (Hj : 0 < j) by (unfold j; lia).
    pose proof (round_half_even_exact (z * 2 ^ j) 1 ltac:(lia)) as R.
    rewrite Z.mul_1_r in R. rewrite R.
    assert (Hp : 0 < 2 ^ j) by (apply Z.pow_pos_nonneg; lia).
    replace (z * 2 ^ j =? 0) with false by (symmetry; apply Z.eqb_neq; nia).
    rewrite Z.log2_mul_pow2 by lia.
    replace (1024 <=? j + Z.log2 z + (Z.log2 z - 52)) with false
      by (symmetry; apply Z.leb_gt; unfold j; lia).
    rewrite Qred_scaled by lia. reflexivity.
Qed.

(** An integer up to [2^53] is a double: rounding leaves it as it is. *)
Lemma to_double_small_integer (z : Z) :
  0 <= z <= 2 ^ 53 -> to_double (inject_Z z) = Finite (inject_Z z).
Proof.
  intros Hz. unfold to_double. simpl Qnum. simpl Qden.
  destruct z as [| p | p]; [reflexivity | | lia].
  apply double_of_small_integer. lia.
Qed.

Lemma to_double_exact (n : nat) : exact n -> to_double (inject_Z (Z.of_nat n)) = of_nat n.
Proof.
  intros H. apply to_double_small_integer. unfold exact in H. lia.
Qed.

(** Beyond [2^53] a decimal text is rounded: the text of [2^53 + 1] reads
    as [2^53]. *)
Example parseInt_rounds : parseInt "9007199254740993" = Finite (inject_Z (2 ^ 53)).
Proof. reflexivity. Qed.

Example parseFloat_overflows : parseFloat "1e400" = Infinity false.
Proof. vm_compute. reflexivity. Qed.

Example parseFloat_underflows : parseFloat "-1e-400" = zero.
Proof. vm_compute. reflexivity. Qed.

Ltac plain_digit H :=
  destruct (dec_digit_plain _ H)
    as (Dws & Dminus & Dplus & Ddot & Dx & DX & Do & DO & Db & DB & De & DE & DI).

(** [parseInt] reads a decimal text back. *)
Lemma parseInt_decimal (n : nat) : exact n -> parseInt (decimal_text n) = of_nat n.
Proof.
  intros Hexact.
  destruct (decimal_chars n) as (c & rest & Hcs & Hdig & Htake).
  pose proof (to_uint_digits n) as Hlen.
  unfold parseInt. rewrite Hcs.
  simpl in Hdig. apply andb_true_iff in Hdig. destruct Hdig as [Hc Hrest].
  assert (Hradix : match rest with
                   | x :: rest' =>
                       if (is_char c "0" && (is_char x "x" || is_char x "X"))%bool
                       then (16, rest') else (10, c :: rest)
                   | [] => (10, c :: rest)
                   end = (10, c :: rest)).
  { destruct rest as [| x rest']; [reflexivity |].
    simpl in Hrest. apply andb_true_iff in Hrest. destruct Hrest as [Hx _].
    plain_digit Hx. rewrite Dx, DX, andb_false_r. reflexivity. }
  plain_digit Hc.
  cbn [trimStart_chars]. rewrite Dws. unfold strip_sign. rewrite Dminus, Dplus.
  rewrite Hradix, Htake.
  destruct (Decimal.nb_digits (Nat.to_uint n)); [lia | apply to_double_exact, Hexact].
Qed.

(** The decimal-literal reader takes a decimal text whole. *)
Lemma StrDecimalLiteral_decimal (n : nat) :
  exact n ->
  StrDecimalLiteral (list_ascii_of_string (decimal_text n)) = Some (of_nat n, []).
Proof.
  intros Hexact.
  destruct (decimal_chars n) as (c & rest & Hcs & Hdig & Htake).
  pose proof (to_uint_digits n) as Hlen.
  unfold StrDecimalLiteral. rewrite Hcs.
  simpl in Hdig. apply andb_true_iff in Hdig. destruct Hdig as [Hc Hrest].
  plain_digit Hc.
  unfold strip_sign. rewrite Dminus, Dplus.
  assert (Hinf : starts_with (list_ascii_of_string "Infinity") (c :: rest) = None).
  { cbn [list_ascii_of_string starts_with]. rewrite DI. reflexivity. }
  rewrite Hinf, Htake.
  destruct (Decimal.nb_digits (Nat.to_uint n)); [lia |].
  unfold take_exponent, scale10. simpl (Z.of_nat 0).
  rewrite Z.sub_diag. simpl (0 <=? 0). cbv iota.
  rewrite Z.pow_0_r, Z.add_0_r, !Z.mul_1_r.
  change (0 <=? 0) with true. cbv iota.
  rewrite (to_double_exact n Hexact). reflexivity.
Qed.

(** [parseFloat] reads a decimal text back. *)
Lemma parseFloat_decimal (n : nat) : exact n -> parseFloat (decimal_text n) = of_nat n.
Proof.
  intros Hexact.
  destruct (decimal_chars n) as (c & rest & Hcs & Hdig & _).
  unfold parseFloat.
  assert (Htrim : trimStart_chars (list_ascii_of_string (decimal_text n))
                  = list_ascii_of_string (decimal_text n)).
  { rewrite Hcs. apply trimStart_fixed. simpl in *.
    apply andb_true_iff in Hdig. destruct Hdig as [Hc _]. plain_digit Hc. assumption. }
  rewrite Htrim, (StrDecimalLiteral_decimal n Hexact). reflexivity.
Qed.

Lemma digits_end_clean (cs : list ascii) :
  forallb dec_digit cs = true -> starts_clean (rev cs).
Proof.
  intros H. destruct (rev cs) as [| c r] eqn:E; [exact I |]. simpl.
  assert (Hin : In c cs) by (apply in_rev; rewrite E; left; reflexivity).
  rewrite forallb_forall in H. specialize (H c Hin). plain_digit H. assumption.
Qed.

(** [Number] reads a decimal text back. *)
Lemma Number_decimal (n : nat) : exact n -> Number (Str (decimal_text n)) = of_nat n.
Proof.
  intros Hexact.
  destruct (decimal_chars n) as (c & rest & Hcs & Hdig & _).
  simpl Number. unfold StringToNumber.
  assert (Htrim : trim_chars (list_ascii_of_string (decimal_text n))
                  = list_ascii_of_string (decimal_text n)).
  { rewrite Hcs. apply trim_chars_fixed; [| apply digits_end_clean; exact Hdig].
    simpl in *. apply andb_true_iff in Hdig. destruct Hdig as [Hc _].
    plain_digit Hc. assumption. }
  rewrite Htrim, (StrDecimalLiteral_decimal n Hexact). rewrite Hcs.
  assert (Hnd : NonDecimalIntegerLiteral (c :: rest) = None).
  { unfold NonDecimalIntegerLiteral. destruct rest as [| p rest']; [reflexivity |].
    simpl in Hdig. apply andb_true_iff in Hdig. destruct Hdig as [_ Hrest].
    apply andb_true_iff in Hrest. destruct Hrest as [Hp _]. plain_digit Hp.
    rewrite Dx, DX, Do, DO, Db, DB. simpl. destruct (is_char c "0"); reflexivity. }
  rewrite Hnd. reflexivity.
Qed.

Lemma trim_decimal (n : nat) : trim (decimal_text n) = decimal_text n /\ decimal_text n <> "".
Proof.
  destruct (decimal_chars n) as (c & rest & Hcs & Hdig & _).
  split.
  - unfold trim. rewrite Hcs, trim_chars_fixed.
    + rewrite <- Hcs. apply string_of_list_ascii_of_string.
    + simpl in *. apply andb_true_iff in Hdig. destruct Hdig as [Hc _].
      plain_digit Hc. assumption.
    + apply digits_end_clean. exact Hdig.
  - intros E. rewrite E in Hcs. discriminate Hcs.
Qed.

End JsFacts.

(* ================================================================== *)
(** ** More on the ingredient routes *)
(* ================================================================== *)

Module RouterMore.
Import Js Eff IngredientRouter NumberFacts RouterSpec MoreSpec RouterMoreSpec JsFacts RouterFacts.

(** X1. GET /ingredient makes the one call [db.ingredient.find()], with no
    criteria.  What the driver returns is answered with status 200 as it
    is, with no envelope; if the driver throws, the answer is 500 with the
    fixed message, and the thrown value goes to the console only. *)
Theorem get_all_answers (S : Type) (db : Driver S) (w : World S) :
  (forall rows s',
      db list_ingredients (store w) = (Returned rows, s') ->
      get_all db w
      = (Returned (mkResponse 200 rows),
         mkWorld s' (calls w ++ [list_ingredients]) (console w)))
  /\ (forall e s',
        db list_ingredients (store w) = (Threw e, s') ->
        get_all db w
        = (Returned (mkResponse 500 (Obj [("message", Str "Internal server error")])),
           mkWorld s' (calls w ++ [list_ingredients])
             (console w ++ [logged "Error fetching ingredients:" e]))).
Proof.
  unfold list_ingredients.
  split; intros x s' H; run_handler; rewrite H; reflexivity.
Qed.

Lemma get_all_answers_witness :
  get_all MemDb.driver (init MemDb.one_vendor)
  = (Returned (mkResponse 200 (Arr [])),
     mkWorld MemDb.one_vendor [list_ingredients] [])
  /\ fst (get_all (StubDb.failing (Str "connection refused")) (init tt))
     = Returned (mkResponse 500 (Obj [("message", Str "Internal server error")])).
Proof.
  split.
  - apply (proj1 (get_all_answers MemDb.Store MemDb.driver (init MemDb.one_vendor))).
    reflexivity.
  - rewrite (proj2 (get_all_answers unit (StubDb.failing (Str "connection refused"))
                      (init tt)) (Str "connection refused") tt eq_refl).
    reflexivity.
Defined.

(** X2. GET /ingredient/:id answers with one of 200, 400, 404 and 500 and
    never throws; it answers 500 exactly when the lookup threw, and then
    with the fixed message, the thrown value going to the console. *)
Theorem get_by_id_statuses (S : Type) (db : Driver S) (id_param : string) (w : World S) :
  exists resp w',
    get_by_id db id_param w = (Returned resp, w')
    /\ In (status resp) [200; 400; 404; 500]
    /\ (status resp = 500 <->
        parseInt id_param <> NaN
        /\ exists e, fst (db (find_ingredient (parseInt id_param)) (store w)) = Threw e)
    /\ (forall e s',
          parseInt id_param <> NaN ->
          db (find_ingredient (parseInt id_param)) (store w) = (Threw e, s') ->
          resp = mkResponse 500 (Obj [("message", Str "Internal server error")])
          /\ console w' = (console w ++ [logged "Error fetching ingredient:" e])%list).
Proof.
  run_handler. unfold find_ingredient.
  destruct (parseInt id_param) as [| neg | q] eqn:Hp; simpl.
  - eexists; eexists; split; [reflexivity |]. simpl.
    split; [tauto |]. split.
    + split; [discriminate | intros [Hn _]; contradiction].
    + intros e s' Hn. contradiction.
  - destruct (db _ (store w)) as [[row | e] s1] eqn:Hdb; simpl.
    + destruct (truthy row); eexists; eexists; (split; [reflexivity |]); simpl;
        (split; [tauto |]); (split; [split; [discriminate | intros [_ [e He]]; discriminate] |]);
        intros e s' _ He; discriminate.
    + eexists; eexists; split; [reflexivity |]. simpl.
      split; [tauto |]. split.
      * split; [intros _; split; [discriminate | exists e; reflexivity] | reflexivity].
      * intros e' s' _ [= <- <-]. split; reflexivity.
  - destruct (db _ (store w)) as [[row | e] s1] eqn:Hdb; simpl.
    + destruct (truthy row); eexists; eexists; (split; [reflexivity |]); simpl;
        (split; [tauto |]); (split; [split; [discriminate | intros [_ [e He]]; discriminate] |]);
        intros e s' _ He; discriminate.
    + eexists; eexists; split; [reflexivity |]. simpl.
      split; [tauto |]. split.
      * split; [intros _; split; [discriminate | exists e; reflexivity] | reflexivity].
      * intros e' s' _ [= <- <-]. split; reflexivity.
Qed.

Lemma get_by_id_statuses_witness :
  exists resp,
    fst (get_by_id (StubDb.failing (Str "connection refused")) "7" (init tt)) = Returned resp
    /\ status resp = 500.
Proof.
  destruct (get_by_id_statuses unit (StubDb.failing (Str "connection refused")) "7" (init tt))
    as (resp & w' & Hrun & _ & H500 & _).
  exists resp. rewrite Hrun. split; [reflexivity |].
  apply H500. split; [discriminate | exists (Str "connection refused"); reflexivity].
Defined.

(** X3. A path parameter that is the decimal text of a number up to
    [2^53] is looked up under that number: [parseInt] reads it exactly.
    (Above the bound the text is rounded to the nearest double.) *)
Theorem get_by_id_reads_decimal (S : Type) (db : Driver S) (n : nat) (w : World S) :
  exact n ->
  calls (snd (get_by_id db (decimal_text n) w))
  = (calls w ++ [mkCall "ingredient" "findOne" [Num (of_nat n)]])%list.
Proof.
  intros Hexact. run_handler. rewrite (parseInt_decimal n Hexact). simpl.
  destruct (db _ (store w)) as [[row | e] s1]; simpl; [destruct (truthy row) |]; reflexivity.
Qed.

Lemma get_by_id_reads_decimal_witness :
  calls (snd (get_by_id MemDb.driver "42" (init MemDb.one_vendor)))
  = [mkCall "ingredient" "findOne" [of_Z 42]].
Proof.
  apply (get_by_id_reads_decimal MemDb.Store MemDb.driver 42 (init MemDb.one_vendor)).
  unfold exact. simpl. lia.
Defined.

(* ------------------------------------------------------------------ *)
(** *** POST /ingredient *)

Lemma new_calls_app {S : Type} (w : World S) (s : S) (l : list Call) (k : list ConsoleEntry) :
  new_calls w (mkWorld s (calls w ++ l) k) = l.
Proof.
  unfold new_calls. simpl. rewrite skipn_app, skipn_all, Nat.sub_diag. reflexivity.
Qed.

Lemma new_console_app {S : Type} (w : World S) (s : S) (c : list Call)
    (l : list ConsoleEntry) :
  new_console w (mkWorld s c (console w ++ l)) = l.
Proof.
  unfold new_console. simpl. rewrite skipn_app, skipn_all, Nat.sub_diag. reflexivity.
Qed.

Lemma new_calls_same {S : Type} (w : World S) : new_calls w w = [].
Proof. unfold new_calls. apply skipn_all. Qed.

Lemma new_console_same {S : Type} (w : World S) (s : S) (c : list Call) :
  new_console w (mkWorld s c (console w)) = [].
Proof. unfold new_console. simpl. apply skipn_all. Qed.

(** X4. POST /ingredient never throws and answers with one of 201, 400 and
    500.  It answers 201 only after the vendor lookup and the insert were
    both made, in that order, and then with the envelope; a 500 carries the
    fixed message, and exactly one error line was written to the console. *)
Theorem post_statuses (S : Type) (db : Driver S) (req_body : value) (w : World S) :
  exists resp w',
    post db req_body w = (Returned resp, w')
    /\ In (status resp) [201; 400; 500]
    /\ (status resp = 201 ->
        exists vendor_id record row,
          new_calls w w' = [find_vendor vendor_id; insert_ingredient record]
          /\ body resp = Obj [("message", Str "Ingredient created successfully");
                              ("ingredient", row)])
    /\ (status resp = 500 ->
        body resp = Obj [("message", Str "Internal server error")]
        /\ exists e, new_console w w' = [logged "Error creating ingredient:" e]).
Proof.
  destruct (post_runs S db req_body w) as (resp & w' & Hrun & Hshape).
  exists resp, w'. split; [exact Hrun |].
  inversion Hshape; subst; simpl; unfold logged_error.
  - split; [tauto |]. split; discriminate.
  - split; [tauto |]. split; [discriminate |]. intros _. split; [reflexivity |].
    exists e. apply new_console_app.
  - split; [tauto |]. split; [discriminate |]. intros _. split; [reflexivity |].
    exists e. apply new_console_app.
  - split; [tauto |]. split; discriminate.
  - split; [tauto |]. split; [discriminate |]. intros _. split; [reflexivity |].
    exists e. apply new_console_app.
  - split; [tauto |]. split; [| discriminate]. intros _.
    exists vendor_id, record, row. split; [apply new_calls_app | reflexivity].
Qed.

Lemma post_statuses_witness :
  exists resp,
    fst (post MemDb.driver (ingredient_request (Str "Salt") (Str "g") (of_Z 1) (of_Z 1))
           (init MemDb.one_vendor)) = Returned resp
    /\ In (status resp) [201; 400; 500].
Proof.
  destruct (post_statuses MemDb.Store MemDb.driver
              (ingredient_request (Str "Salt") (Str "g") (of_Z 1) (of_Z 1))
              (init MemDb.one_vendor)) as (resp & w' & Hrun & Hin & _).
  exists resp. rewrite Hrun. split; [reflexivity | exact Hin].
Defined.

(** X5. A body from which a required field is missing -- [name], [unit] or
    [vendor_id] absent or otherwise falsy (null, empty string, 0, false),
    or [cost_per_unit] absent -- is answered 400 with the missing-fields
    message, before any type check and without a driver call. *)
Theorem post_missing_field
  (S : Type) (db : Driver S) (w : World S) (req_body name unit cost_per_unit vendor_id : value) :
  has_fields req_body name unit cost_per_unit vendor_id ->
  truthy name = false \/ truthy unit = false
  \/ cost_per_unit = Undefined \/ truthy vendor_id = false ->
  post db req_body w
  = (Returned (mkResponse 400
       (Obj [("message",
              Str "Missing required fields: name, unit, cost_per_unit, vendor_id")])),
     w).
Proof.
  intros (Hn & Hu & Hc & Hv) Hmissing. run_handler. rewrite Hn, Hu, Hc, Hv.
  assert (Hguard : (negb (truthy name) || negb (truthy unit)
                    || is_undefined cost_per_unit || negb (truthy vendor_id))%bool = true).
  { destruct Hmissing as [H | [H | [H | H]]]; rewrite H; simpl;
      rewrite ?orb_true_r; reflexivity. }
  rewrite Hguard. reflexivity.
Qed.

Lemma post_missing_field_witness :
  post MemDb.driver (Obj [("name", Str "Salt"); ("unit", Str "g"); ("vendor_id", of_Z 1)])
    (init MemDb.one_vendor)
  = (Returned (mkResponse 400
       (Obj [("message",
              Str "Missing required fields: name, unit, cost_per_unit, vendor_id")])),
     init MemDb.one_vendor).
Proof.
  apply (post_missing_field MemDb.Store MemDb.driver (init MemDb.one_vendor) _
           (Str "Salt") (Str "g") Undefined (of_Z 1)).
  - repeat split.
  - right. right. left. reflexivity.
Defined.

(** X6. A request with no body at all -- [req.body] undefined or null -- is
    not a 400: the destructuring throws, and the answer is 500 with the
    fixed message, one console line and no driver call. *)
Theorem post_without_body
  (S : Type) (db : Driver S) (w : World S) (req_body : value) :
  req_body = Undefined \/ req_body = Null ->
  exists e,
    post db req_body w
    = (Returned (mkResponse 500 (Obj [("message", Str "Internal server error")])),
       mkWorld (store w) (calls w)
         (console w ++ [logged "Error creating ingredient:" e]))
    /\ get e "name" = Returned (Str "TypeError").
Proof.
  intros [-> | ->]; eexists; (split; [reflexivity | reflexivity]).
Qed.

Lemma post_without_body_witness :
  fst (post MemDb.driver Null (init MemDb.one_vendor))
  = Returned (mkResponse 500 (Obj [("message", Str "Internal server error")])).
Proof.
  destruct (post_without_body MemDb.Store MemDb.driver (init MemDb.one_vendor) Null
              (or_intror eq_refl)) as (e & H & _).
  rewrite H. reflexivity.
Defined.

Lemma checked_number (v : value) (test : number -> bool) :
  (negb (is_number v) || test (Number v))%bool = false ->
  exists n, v = Num n /\ test n = false.
Proof.
  destruct v; simpl; try discriminate. intros H. exists n. split; [reflexivity | exact H].
Qed.

Lemma checked_string (v : value) :
  truthy v = true -> is_string v = true -> exists s, v = Str s /\ s <> "".
Proof.
  destruct v; simpl; try discriminate. intros H _. exists s. split; [reflexivity |].
  intros ->. discriminate H.
Qed.

Lemma not_le_zero_positive (n : number) :
  truthy (Num n) = true -> le n zero = false -> lt zero n = true.
Proof.
  destruct n as [| [] | q]; simpl; try discriminate; try reflexivity.
  intros _ H. rewrite H. reflexivity.
Qed.

Ltac no_calls := unfold new_calls; simpl; rewrite skipn_all; intros [].

(** X7. Whatever the body and the driver, a record that POST hands to
    [db.ingredient.insert] has passed every check: it is built from the
    body's four fields, its name is a non-empty string of the body,
    trimmed, its unit a non-empty string, its cost a number that is not
    below zero and its vendor id a number above zero. *)
Theorem post_inserts_checked_records
  (S : Type) (db : Driver S) (req_body : value) (w : World S) (c : Call) :
  In c (new_calls w (snd (post db req_body w))) ->
  method c = "insert" ->
  exists (name unit : string) (cost_per_unit vendor_id : number),
    has_fields req_body (Str name) (Str unit) (Num cost_per_unit) (Num vendor_id)
    /\ c = mkCall "ingredient" "insert"
             [Obj [("name", Str (trim name)); ("unit", Str unit);
                   ("cost_per_unit", Num cost_per_unit); ("vendor_id", Num vendor_id)]]
    /\ name <> "" /\ unit <> ""
    /\ lt cost_per_unit zero = false
    /\ lt zero vendor_id = true.
Proof.
  run_handler.
  destruct (get req_body "name") as [name | e] eqn:Hn;
    [| no_calls].
  destruct (get req_body "unit") as [unit | e] eqn:Hu;
    [| no_calls].
  destruct (get req_body "cost_per_unit") as [cost | e] eqn:Hc;
    [| no_calls].
  destruct (get req_body "vendor_id") as [vid | e] eqn:Hv;
    [| no_calls].
  destruct (negb (truthy name) || negb (truthy unit) || is_undefined cost
            || negb (truthy vid))%bool eqn:Hguard;
    [no_calls |].
  read_types.
  destruct (negb (is_string name) || negb (is_string unit))%bool eqn:Hstr;
    [no_calls |].
  destruct (negb (is_number cost) || lt (Number cost) zero)%bool eqn:Hcost;
    [no_calls |].
  destruct (negb (is_number vid) || le (Number vid) zero)%bool eqn:Hvid;
    [no_calls |].
  apply orb_false_iff in Hguard. destruct Hguard as [Hguard Tv].
  apply orb_false_iff in Hguard. destruct Hguard as [Hguard _].
  apply orb_false_iff in Hguard. destruct Hguard as [Tn Tu].
  apply negb_false_iff in Tn, Tu, Tv.
  apply orb_false_iff in Hstr. destruct Hstr as [Sn Su].
  apply negb_false_iff in Sn, Su.
  destruct (checked_string name Tn Sn) as (n & -> & Hne).
  destruct (checked_string unit Tu Su) as (u & -> & Hue).
  destruct (checked_number cost (fun x => lt x zero) Hcost) as (cn & -> & Hcn).
  destruct (checked_number vid (fun x => le x zero) Hvid) as (vn & -> & Hvn).
  pose proof (not_le_zero_positive vn Tv Hvn) as Hpos.
  destruct (db (mkCall "entity" "findOne" [Num vn]) (store w)) as [[vendor | e] s1]; simpl.
  - destruct (truthy vendor); simpl.
    + match goal with
      | |- context [db ?i s1] => destruct (db i s1) as [[row | e] s2]
      end; simpl; rewrite <- app_assoc, new_calls_app; simpl;
        intros [<- | [<- | []]] Hm; try discriminate Hm;
        exists n, u, cn, vn; repeat split; auto.
    + rewrite new_calls_app. intros [<- | []] Hm. discriminate Hm.
  - rewrite new_calls_app. intros [<- | []] Hm. discriminate Hm.
Qed.

Lemma post_inserts_checked_records_witness :
  exists (name unit : string) (cost_per_unit vendor_id : number),
    mkCall "ingredient" "insert"
      [Obj [("name", Str "Tomatoes"); ("unit", Str "lb");
            ("cost_per_unit", Num (Finite (5 # 2))); ("vendor_id", of_Z 1)]]
    = mkCall "ingredient" "insert"
        [Obj [("name", Str (trim name)); ("unit", Str unit);
              ("cost_per_unit", Num cost_per_unit); ("vendor_id", Num vendor_id)]]
    /\ name <> "" /\ lt zero vendor_id = true.
Proof.
  destruct (post_inserts_checked_records MemDb.Store MemDb.driver
              (ingredient_request (Str " Tomatoes ") (Str "lb")
                 (Num (Finite (5 # 2))) (of_Z 1))
              (init MemDb.one_vendor)
              (mkCall "ingredient" "insert"
                 [Obj [("name", Str "Tomatoes"); ("unit", Str "lb");
                       ("cost_per_unit", Num (Finite (5 # 2))); ("vendor_id", of_Z 1)]]))
    as (name & unit & cost & vid & _ & Hc & Hname & _ & _ & Hvid).
  - right. left. reflexivity.
  - reflexivity.
  - exists name, unit, cost, vid. split; [exact Hc | split; assumption].
Defined.

(* ------------------------------------------------------------------ *)
(** *** POST /ingredient past its checks *)

(** Past the checks, the answer is decided by what the driver answers to
    the lookup and then to the insert. *)
Lemma post_past_checks
  (S : Type) (db : Driver S) (w : World S) (req_body : value)
  (name unit : string) (cost_per_unit vendor_id : number) :
  well_formed req_body name unit cost_per_unit vendor_id ->
  let lookup := find_vendor (Num vendor_id) in
  let insert := insert_ingredient (checked_record name unit cost_per_unit vendor_id) in
  post db req_body w
  = match db lookup (store w) with
    | (Threw e, s1) =>
        (Returned internal_error,
         mkWorld s1 (calls w ++ [lookup])
           (console w ++ [logged "Error creating ingredient:" e]))
    | (Returned vendor, s1) =>
        if truthy vendor then
          match db insert s1 with
          | (Returned row, s2) =>
              (Returned (mkResponse 201 (created_envelope row)),
               mkWorld s2 (calls w ++ [lookup; insert]) (console w))
          | (Threw e, s2) =>
              (Returned internal_error,
               mkWorld s2 (calls w ++ [lookup; insert])
                 (console w ++ [logged "Error creating ingredient:" e]))
          end
        else
          (Returned (mkResponse 400 (message msg_vendor_missing)),
           mkWorld s1 (calls w ++ [lookup]) (console w))
    end.
Proof.
  intros ((Hn & Hu & Hc & Hv) & Hname & Hunit & Hcost & Hvid) lookup insert.
  run_handler. rewrite Hn, Hu, Hc, Hv.
  rewrite (nonempty_truthy name Hname), (nonempty_truthy unit Hunit),
    (pos_truthy vendor_id Hvid). simpl.
  rewrite Hcost, (pos_not_le_zero _ Hvid).
  unfold lookup, insert, find_vendor, insert_ingredient, checked_record.
  destruct (db _ (store w)) as [[vendor | e] s1]; simpl; [| reflexivity].
  destruct (truthy vendor); simpl; [| reflexivity].
  destruct (db _ s1) as [[row | e] s2]; simpl; rewrite <- app_assoc; reflexivity.
Qed.

(** X8. A well-formed body whose vendor lookup finds no row is answered 400
    "Vendor not found"; the lookup is the only call made. *)
Theorem post_vendor_not_found
  (S : Type) (db : Driver S) (w : World S) (req_body : value)
  (name unit : string) (cost_per_unit vendor_id : number) (vendor : value) (s1 : S) :
  well_formed req_body name unit cost_per_unit vendor_id ->
  db (find_vendor (Num vendor_id)) (store w) = (Returned vendor, s1) ->
  truthy vendor = false ->
  post db req_body w
  = (Returned (mkResponse 400 (Obj [("message", Str "Vendor not found")])),
     mkWorld s1 (calls w ++ [mkCall "entity" "findOne" [Num vendor_id]]) (console w)).
Proof.
  intros Hwf Hfind Hv. rewrite (post_past_checks S db w req_body _ _ _ _ Hwf).
  rewrite Hfind, Hv. reflexivity.
Qed.

Lemma post_vendor_not_found_witness :
  post MemDb.driver (ingredient_request (Str "Salt") (Str "g") (of_Z 1) (of_Z 9))
    (init MemDb.one_vendor)
  = (Returned (mkResponse 400 (Obj [("message", Str "Vendor not found")])),
     mkWorld MemDb.one_vendor [mkCall "entity" "findOne" [of_Z 9]] []).
Proof.
  apply (post_vendor_not_found MemDb.Store MemDb.driver (init MemDb.one_vendor) _
           "Salt" "g" (Finite (inject_Z 1)) (Finite (inject_Z 9)) Null MemDb.one_vendor).
  - repeat split; discriminate.
  - reflexivity.
  - reflexivity.
Defined.

(** X9. When the driver throws on a well-formed body -- at the lookup, or at
    the insert after a successful lookup -- the answer is 500 with the
    fixed message and the thrown value is written to the console; the
    persisted state is the one the failed call left, nothing is undone or
    retried. *)
Theorem post_driver_failure
  (S : Type) (db : Driver S) (w : World S) (req_body : value)
  (name unit : string) (cost_per_unit vendor_id : number) :
  well_formed req_body name unit cost_per_unit vendor_id ->
  let lookup := mkCall "entity" "findOne" [Num vendor_id] in
  let insert := mkCall "ingredient" "insert"
                  [checked_record name unit cost_per_unit vendor_id] in
  let failed := mkResponse 500 (Obj [("message", Str "Internal server error")]) in
  (forall e s1,
      db lookup (store w) = (Threw e, s1) ->
      post db req_body w
      = (Returned failed,
         mkWorld s1 (calls w ++ [lookup])
           (console w ++ [logged "Error creating ingredient:" e])))
  /\ (forall vendor e s1 s2,
        db lookup (store w) = (Returned vendor, s1) ->
        truthy vendor = true ->
        db insert s1 = (Threw e, s2) ->
        post db req_body w
        = (Returned failed,
           mkWorld s2 (calls w ++ [lookup; insert])
             (console w ++ [logged "Error creating ingredient:" e]))).
Proof.
  intros Hwf lookup insert failed.
  split.
  - intros e s1 Hfind. rewrite (post_past_checks S db w req_body _ _ _ _ Hwf).
    fold lookup in Hfind. unfold find_vendor. unfold lookup in Hfind. rewrite Hfind.
    reflexivity.
  - intros vendor e s1 s2 Hfind Hv Hins.
    rewrite (post_past_checks S db w req_body _ _ _ _ Hwf).
    unfold find_vendor, insert_ingredient. unfold lookup in Hfind. unfold insert in Hins.
    rewrite Hfind, Hv, Hins. reflexivity.
Qed.

Lemma post_driver_failure_witness :
  fst (post (StubDb.failing (Str "connection refused"))
         (ingredient_request (Str "Salt") (Str "g") (of_Z 1) (of_Z 1)) (init tt))
  = Returned (mkResponse 500 (Obj [("message", Str "Internal server error")])).
Proof.
  assert (Hwf : well_formed (ingredient_request (Str "Salt") (Str "g") (of_Z 1) (of_Z 1))
                  "Salt" "g" (Finite (inject_Z 1)) (Finite (inject_Z 1)))
    by (repeat split; discriminate).
  rewrite (proj1 (post_driver_failure unit (StubDb.failing (Str "connection refused"))
                    (init tt) _ _ _ _ _ Hwf) (Str "connection refused") tt eq_refl).
  reflexivity.
Defined.

(** X10. The emptiness check comes before the trim: a name made only of white
    space passes it, and the record inserted carries the empty name. *)
Theorem post_blank_name_is_stored_empty
  (S : Type) (db : Driver S) (w : World S) (req_body : value)
  (name unit : string) (cost_per_unit vendor_id : number)
  (vendor row : value) (s1 s2 : S) :
  well_formed req_body name unit cost_per_unit vendor_id ->
  blank name ->
  db (find_vendor (Num vendor_id)) (store w) = (Returned vendor, s1) ->
  truthy vendor = true ->
  let insert := mkCall "ingredient" "insert"
                  [Obj [("name", Str ""); ("unit", Str unit);
                        ("cost_per_unit", Num cost_per_unit);
                        ("vendor_id", Num vendor_id)]] in
  db insert s1 = (Returned row, s2) ->
  post db req_body w
  = (Returned (mkResponse 201 (created_envelope row)),
     mkWorld s2 (calls w ++ [find_vendor (Num vendor_id); insert]) (console w)).
Proof.
  intros Hwf Hblank Hfind Hv insert Hins.
  rewrite (post_past_checks S db w req_body _ _ _ _ Hwf).
  rewrite Hfind, Hv. unfold checked_record, insert_ingredient, insert_record.
  rewrite (trim_blank name Hblank). unfold insert in Hins. rewrite Hins. reflexivity.
Qed.

Lemma post_blank_name_is_stored_empty_witness :
  fst (post MemDb.driver (ingredient_request (Str "   ") (Str "g") (of_Z 1) (of_Z 1))
         (init MemDb.one_vendor))
  = Returned (mkResponse 201
      (created_envelope
         (Obj [("id", of_Z 1); ("name", Str ""); ("unit", Str "g");
               ("cost_per_unit", of_Z 1); ("vendor_id", of_Z 1)]))).
Proof.
  rewrite (post_blank_name_is_stored_empty MemDb.Store MemDb.driver (init MemDb.one_vendor)
             (ingredient_request (Str "   ") (Str "g") (of_Z 1) (of_Z 1))
             "   " "g" (Finite (inject_Z 1)) (Finite (inject_Z 1))
             MemDb.vendor1
             (Obj [("id", of_Z 1); ("name", Str ""); ("unit", Str "g");
                   ("cost_per_unit", of_Z 1); ("vendor_id", of_Z 1)])
             MemDb.one_vendor
             (MemDb.mkStore [MemDb.vendor1]
                [Obj [("id", of_Z 1); ("name", Str ""); ("unit", Str "g");
                      ("cost_per_unit", of_Z 1); ("vendor_id", of_Z 1)]] 2)).
  - reflexivity.
  - repeat split; discriminate.
  - reflexivity.
  - reflexivity.
  - reflexivity.
  - reflexivity.
Defined.

End RouterMore.

(* ================================================================== *)
(** ** More on the data-access layer *)
(* ================================================================== *)

Module PantryMore.
Import Js Eff PantrySpec MoreSpec PantryMoreSpec JsFacts PantryFacts.

(* ------------------------------------------------------------------ *)
(** *** The empty-array guard *)

Lemma lookup_In (k : string) (v : value) (props : list (string * value)) :
  lookup k props = Some v -> In (k, v) props.
Proof.
  induction props as [| [k' v'] props IH]; simpl; [discriminate |].
  destruct (String.eqb_spec k k') as [-> | _].
  - intros E. injection E as ->. left. reflexivity.
  - intros E. right. exact (IH E).
Qed.

Lemma is_empty_array_true (v : value) : is_empty_array v = true -> v = Arr [].
Proof.
  destruct v as [| | | | | [| ? ?] |]; try discriminate. reflexivity.
Qed.

(** Whether the criteria are read by their fields or, being array-like, by
    their indices, the guard only fires on a field that is the empty
    array. *)
Lemma hasEmptyArray_object (props : list (string * value)) :
  hasEmptyArray (Obj props) = true -> exists field, In (field, Arr []) props.
Proof.
  unfold hasEmptyArray, some.
  destruct (array_like_length props) as [length |]; rewrite existsb_exists.
  - intros (v & Hin & Hv). apply in_map_iff in Hin. destruct Hin as (index & <- & _).
    apply is_empty_array_true in Hv. unfold at_index in Hv.
    destruct (lookup (index_key index) props) as [v |] eqn:E; [| discriminate Hv].
    subst v. exists (index_key index). exact (lookup_In _ _ _ E).
  - intros (v & Hin & Hv). apply in_map_iff in Hin. destruct Hin as ([field v'] & <- & Hin).
    simpl in Hv. apply is_empty_array_true in Hv. subst v'.
    exists field. exact Hin.
Qed.

(** X11. The guard looks at the criteria's own fields and no deeper, and it is
    the only thing that keeps a query from the table: on criteria none of
    whose fields is the empty array -- an empty array nested inside an
    [or] or [and] group included -- [find], [count], [update] and
    [destroy] each make their call, and so do [find] and [count] when the
    criteria are omitted. *)
Theorem guard_is_shallow_and_exact
  (S : Type) (db : Driver S) (this : PantryView.t S)
  (props : list (string * value)) (options updates : value) (w : World S) :
  (forall field, ~ In (field, Arr []) props) ->
  let criteria := Obj props in
  let table := PantryView.table this in
  let merged := spread2 (PantryView.defaultRetrievalOptions this) options in
  PantryView.find db this criteria options w
  = call db (mkCall table "find" [criteria; merged]) w
  /\ PantryView.count db this criteria w = call db (mkCall table "count" [criteria]) w
  /\ PantryTable.update db this criteria updates w
     = call db (mkCall table "update" [criteria; updates]) w
  /\ PantryTable.destroy db this criteria w = call db (mkCall table "destroy" [criteria]) w
  /\ PantryView.find db this Undefined options w
     = call db (mkCall table "find" [Undefined; merged]) w
  /\ PantryView.count db this Undefined w = call db (mkCall table "count" [Undefined]) w.
Proof.
  intros Hnone criteria table merged.
  assert (He : hasEmptyArray criteria = false).
  { destruct (hasEmptyArray criteria) eqn:E; [| reflexivity].
    apply hasEmptyArray_object in E. destruct E as (field & Hin).
    exfalso. exact (Hnone field Hin). }
  unfold PantryView.find, PantryView.count, PantryTable.update, PantryTable.destroy.
  rewrite He. repeat split.
Qed.

Lemma guard_is_shallow_and_exact_witness :
  calls (snd (PantryView.find (StubDb.answering (Arr []))
                (PantryView.mk "ingredient" None (Obj []))
                (Obj [("or", Arr [Obj [("id", Arr [])]])]) Undefined (init tt)))
  = [mkCall "ingredient" "find" [Obj [("or", Arr [Obj [("id", Arr [])]])]; Obj []]].
Proof.
  assert (Hnone : forall field : string,
             ~ In (field, Arr []) [("or", Arr [Obj [("id", Arr [])]])])
    by (intros field [E | []]; discriminate E).
  rewrite (proj1 (guard_is_shallow_and_exact unit (StubDb.answering (Arr []))
                    (PantryView.mk "ingredient" None (Obj []))
                    [("or", Arr [Obj [("id", Arr [])]])] Undefined Undefined (init tt)
                    Hnone)).
  reflexivity.
Defined.

(* ------------------------------------------------------------------ *)
(** *** Retrieval options *)

Lemma lookup_app (k : string) (a b : list (string * value)) :
  lookup k (a ++ b)
  = match lookup k a with Some v => Some v | None => lookup k b end.
Proof.
  induction a as [| [k' v'] a IH]; simpl; [reflexivity |].
  destruct (String.eqb k k'); [reflexivity | exact IH].
Qed.

Lemma lookup_assign (k k' : string) (v : value) (acc : list (string * value)) :
  lookup k (assign acc k' v) = if String.eqb k k' then Some v else lookup k acc.
Proof.
  induction acc as [| [k1 v1] acc IH]; simpl.
  - destruct (String.eqb k k'); reflexivity.
  - destruct (String.eqb_spec k' k1) as [-> | Hne]; simpl.
    + destruct (String.eqb k k1); reflexivity.
    + destruct (String.eqb_spec k k1) as [-> | Hne'].
      * destruct (String.eqb_spec k1 k') as [-> | _]; [contradiction | reflexivity].
      * exact IH.
Qed.

Lemma lookup_absent (k : string) (l : list (string * value)) :
  ~ In k (keys l) -> lookup k l = None.
Proof.
  induction l as [| [k' v'] l IH]; simpl; [reflexivity |].
  intros H. destruct (String.eqb_spec k k') as [-> | _].
  - exfalso. apply H. left. reflexivity.
  - apply IH. intros Hin. apply H. right. exact Hin.
Qed.

Lemma lookup_rev_unique (k : string) (l : list (string * value)) :
  NoDup (keys l) -> lookup k (rev l) = lookup k l.
Proof.
  induction l as [| [k' v'] l IH]; simpl; [reflexivity |].
  intros Hnd. inversion Hnd as [| ? ? Hnotin Hnd']; subst.
  rewrite lookup_app, (IH Hnd'). simpl.
  destruct (String.eqb_spec k k') as [-> | _].
  - rewrite (lookup_absent k' l Hnotin). reflexivity.
  - destruct (lookup k l); reflexivity.
Qed.

Lemma lookup_fold (k : string) (l acc : list (string * value)) :
  lookup k (fold_left put l acc)
  = match lookup k (rev l) with Some v => Some v | None => lookup k acc end.
Proof.
  revert acc. induction l as [| [k' v'] l IH]; intros acc; simpl; [reflexivity |].
  rewrite IH, lookup_app. unfold put. simpl. rewrite lookup_assign.
  destruct (lookup k (rev l)); [reflexivity |].
  destruct (String.eqb k k'); reflexivity.
Qed.

Lemma keys_assign (acc : list (string * value)) (k : string) (v : value) :
  keys (assign acc k v) = if existsb (String.eqb k) (keys acc) then keys acc
                          else (keys acc ++ [k])%list.
Proof.
  induction acc as [| [k1 v1] acc IH]; simpl; [reflexivity |].
  destruct (String.eqb k k1); simpl; [reflexivity |].
  unfold keys in *. rewrite IH. destruct (existsb (String.eqb k) (map fst acc)); reflexivity.
Qed.

Lemma assign_unique (acc : list (string * value)) (k : string) (v : value) :
  NoDup (keys acc) -> NoDup (keys (assign acc k v)).
Proof.
  intros H. rewrite keys_assign.
  destruct (existsb (String.eqb k) (keys acc)) eqn:E; [exact H |].
  apply NoDup_app; [exact H | repeat constructor; intros [] |].
  intros x Hx [Hk | []]. subst x.
  assert (Hex : existsb (String.eqb k) (keys acc) = true).
  { apply existsb_exists. exists k. split; [exact Hx | apply String.eqb_refl]. }
  congruence.
Qed.

Lemma fold_unique (l acc : list (string * value)) :
  NoDup (keys acc) -> NoDup (keys (fold_left put l acc)).
Proof.
  revert acc. induction l as [| kv l IH]; intros acc H; simpl; [exact H |].
  apply IH. apply assign_unique. exact H.
Qed.

(** X12. The options [find] hands to the table are the view's defaults
    overridden, key by key, by the options of the call: a key of the call
    has the call's value, any other key has the default's, and no key
    occurs twice.  With the call's options omitted they are the
    defaults. *)
Theorem find_merges_options
  (S : Type) (db : Driver S) (this : PantryView.t S)
  (defaults given : list (string * value)) (criteria : value) (w : World S) :
  PantryView.defaultRetrievalOptions this = Obj defaults ->
  NoDup (keys defaults) ->
  NoDup (keys given) ->
  (truthy criteria && hasEmptyArray criteria)%bool = false ->
  exists merged plain,
    PantryView.find db this criteria (Obj given) w
    = call db (mkCall (PantryView.table this) "find" [criteria; Obj merged]) w
    /\ NoDup (keys merged)
    /\ (forall k, lookup k merged
                  = match lookup k given with
                    | Some v => Some v
                    | None => lookup k defaults
                    end)
    /\ PantryView.find db this criteria Undefined w
       = call db (mkCall (PantryView.table this) "find" [criteria; Obj plain]) w
    /\ (forall k, lookup k plain = lookup k defaults).
Proof.
  intros Hd Ud Ug Hguard.
  exists (fold_left put (defaults ++ given) []), (fold_left put (defaults ++ []) []).
  unfold PantryView.find. rewrite Hguard, Hd.
  split; [reflexivity |]. split; [apply fold_unique; constructor |]. split; [| split].
  - intros k. rewrite lookup_fold, rev_app_distr, lookup_app.
    rewrite (lookup_rev_unique k given Ug), (lookup_rev_unique k defaults Ud).
    destruct (lookup k given); [reflexivity |]. destruct (lookup k defaults); reflexivity.
  - reflexivity.
  - intros k. rewrite app_nil_r, lookup_fold, (lookup_rev_unique k defaults Ud).
    destruct (lookup k defaults); reflexivity.
Qed.

Lemma find_merges_options_witness :
  calls (snd (PantryView.find (StubDb.answering (Arr []))
                (PantryView.mk "ingredient" None
                   (Obj [("limit", of_Z 50); ("order", Str "name")]))
                (Obj [("vendor_id", of_Z 1)]) (Obj [("limit", of_Z 5)]) (init tt)))
  = [mkCall "ingredient" "find"
       [Obj [("vendor_id", of_Z 1)]; Obj [("limit", of_Z 5); ("order", Str "name")]]].
Proof.
  destruct (find_merges_options unit (StubDb.answering (Arr []))
              (PantryView.mk "ingredient" None
                 (Obj [("limit", of_Z 50); ("order", Str "name")]))
              [("limit", of_Z 50); ("order", Str "name")] [("limit", of_Z 5)]
              (Obj [("vendor_id", of_Z 1)]) (init tt) eq_refl)
    as (merged & plain & Hfind & _).
  - repeat constructor; simpl; intuition discriminate.
  - repeat constructor; simpl; intuition.
  - reflexivity.
  - reflexivity.
Defined.

(* ------------------------------------------------------------------ *)
(** *** Batches *)

Lemma strict_equal_lengths (a b : nat) :
  strict_equal (of_Z (Z.of_nat a)) (of_Z (Z.of_nat b)) = Nat.eqb a b.
Proof.
  unfold strict_equal, of_Z.
  destruct (Nat.eqb_spec a b) as [-> | Hne].
  - apply Qeq_bool_iff. reflexivity.
  - destruct (Qeq_bool (inject_Z (Z.of_nat a)) (inject_Z (Z.of_nat b))) eqn:E; [| reflexivity].
    apply Qeq_bool_iff in E. unfold Qeq, inject_Z in E. simpl in E. lia.
Qed.

(** X13. An empty batch never reaches the table: [PantryTable.insert] of the
    empty array returns the empty array without a call, and so do
    [batchInsert] and [batchInsertWithIds], which also write no
    warning. *)
Theorem empty_batch_is_not_sent
  (S : Type) (dao : DAO S) (db : Driver S) (table : PantryView.t S)
  (options : value) (w w1 : World S) :
  getTable dao db w = (Returned table, w1) ->
  PantryTable.insert db table (Arr []) options w1 = (Returned (Arr []), w1)
  /\ CreateAndReadDAO.batchInsert dao db (Arr []) w = (Returned (Arr []), w1)
  /\ CreateAndReadDAO.batchInsertWithIds dao db (Arr []) options w = (Returned (Arr []), w1).
Proof.
  intros Hget.
  unfold CreateAndReadDAO.batchInsert, CreateAndReadDAO.batchInsertWithIds,
    PantryTable.insert, bind, lift, ret. simpl. rewrite Hget. simpl.
  repeat split.
Qed.

Lemma empty_batch_is_not_sent_witness :
  CreateAndReadDAO.batchInsert trimming_dao
    (StubDb.failing (new_Error "syntax error")) (Arr []) (init tt)
  = (Returned (Arr []), init tt).
Proof.
  apply (empty_batch_is_not_sent unit trimming_dao (StubDb.failing (new_Error "syntax error"))
           (PantryView.mk "ingredient" None (Obj [])) Undefined (init tt) (init tt) eq_refl).
Defined.

(** X14. With a [defaultMapper] that does not read [this] (the hook is
    handed to [map] without its receiver, and is called with the row, its
    index and the array), [batchInsert] hands the table the sanitized
    records in one call and returns the rows the table answers, each passed
    through [defaultMapper].  When the table answers fewer or more rows
    than were sent it writes one console warning and still returns them;
    otherwise it writes nothing. *)
Theorem batchInsert_warns_on_mismatch
  (S : Type) (dao : DAO S) (db : Driver S) (table : PantryView.t S)
  (given inserted : list value) (w w1 w2 : World S) :
  receiver_free dao ->
  getTable dao db w = (Returned table, w1) ->
  let sanitized := Arr (map (sanitizeInsertRecord dao) given) in
  PantryTable.insert db table sanitized Undefined w1 = (Returned (Arr inserted), w2) ->
  CreateAndReadDAO.batchInsert dao db (Arr given) w
  = (Returned (Arr (map (defaultMapper dao) inserted)),
     mkWorld (store w2) (calls w2)
       (console w2 ++
        (if Nat.eqb (List.length inserted) (List.length given) then []
         else [mismatch_warning (Arr inserted) sanitized (Arr given)]))).
Proof.
  intros Hfree Hget sanitized Hins.
  unfold CreateAndReadDAO.batchInsert, bind, lift, array_map, array_map_method, length_of.
  fold sanitized. rewrite Hget, Hins. unfold sanitized at 1.
  rewrite strict_equal_lengths, length_map, (map_callback_receiver_free dao _ _ _ Hfree).
  destruct (Nat.eqb (List.length inserted) (List.length given)); simpl.
  - rewrite app_nil_r. destruct w2; reflexivity.
  - reflexivity.
Qed.

Lemma batchInsert_warns_on_mismatch_witness :
  console (snd (CreateAndReadDAO.batchInsert trimming_dao
                  (StubDb.answering (Arr [padded_row]))
                  (Arr [padded_row; padded_row]) (init tt)))
  = [mismatch_warning (Arr [padded_row]) (Arr [padded_row; padded_row])
       (Arr [padded_row; padded_row])].
Proof.
  assert (Hfree : receiver_free trimming_dao) by (intros row index array; reflexivity).
  rewrite (batchInsert_warns_on_mismatch unit trimming_dao
             (StubDb.answering (Arr [padded_row]))
             (PantryView.mk "ingredient" None (Obj []))
             [padded_row; padded_row] [padded_row] (init tt) (init tt)
             (mkWorld tt [mkCall "ingredient" "insert"
                            [Arr [padded_row; padded_row]; Undefined]] [])
             Hfree eq_refl eq_refl).
  reflexivity.
Defined.

(* ------------------------------------------------------------------ *)
(** *** Hooks, failures and absent rows *)

(** X15. What reaches the table on a write is the record as the sanitize hook
    returned it: [insert] and [save] send [sanitizeInsertRecord(record)],
    [updateById] and [update] send [sanitizeUpdateRecord(record)], and
    each makes that one call. *)
Theorem writes_send_the_sanitized_record
  (S : Type) (dao : DAO S) (db : Driver S) (table : PantryView.t S)
  (record id options : value) (props : list (string * value)) (w w1 : World S) :
  getTable dao db w = (Returned table, w1) ->
  (forall field, ~ In (field, Arr []) props) ->
  let name := PantryView.table table in
  let sent c := (calls w1 ++ [c])%list in
  calls (snd (CreateAndReadDAO.insert dao db record options w))
  = sent (mkCall name "insert" [sanitizeInsertRecord dao record; options])
  /\ calls (snd (CreateAndReadDAO.save dao db record w))
     = sent (mkCall name "save" [sanitizeInsertRecord dao record])
  /\ calls (snd (BaseDAO.updateById dao db id record w))
     = sent (mkCall name "update" [id; sanitizeUpdateRecord dao record; Undefined])
  /\ calls (snd (BaseDAO.update dao db (Obj props) record w))
     = sent (mkCall name "update" [Obj props; sanitizeUpdateRecord dao record]).
Proof.
  intros Hget Hnone name sent.
  assert (He : hasEmptyArray (Obj props) = false).
  { destruct (hasEmptyArray (Obj props)) eqn:E; [| reflexivity].
    apply hasEmptyArray_object in E. destruct E as (field & Hin).
    exfalso. exact (Hnone field Hin). }
  unfold CreateAndReadDAO.insert, CreateAndReadDAO.save, BaseDAO.updateById, BaseDAO.update,
    PantryTable.insertOne, PantryTable.save, PantryTable.updateOne, PantryTable.update,
    bind, lift, ret, call, sent, name.
  rewrite Hget, He.
  repeat split;
    match goal with
    | |- context [db ?c (store w1)] => destruct (db c (store w1)) as [[r | e] s']
    end; reflexivity.
Qed.

Lemma writes_send_the_sanitized_record_witness :
  let lower : DAO unit :=
    mkDAO (fun _ => ret (PantryView.mk "ingredient" None (Obj [])))
      (fun r => r) trim_name (fun r => r) in
  calls (snd (CreateAndReadDAO.insert lower (StubDb.answering Null) padded_row Undefined
                (init tt)))
  = [mkCall "ingredient" "insert" [Obj [("id", of_Z 7); ("name", Str "Salt")]; Undefined]].
Proof.
  intros lower.
  assert (Hnone : forall field : string, ~ In (field, Arr []) []) by (intros field []).
  rewrite (proj1 (writes_send_the_sanitized_record unit lower (StubDb.answering Null)
                    (PantryView.mk "ingredient" None (Obj []))
                    padded_row Undefined Undefined [] (init tt) (init tt) eq_refl Hnone)).
  reflexivity.
Defined.

(** X16. The DAO swallows no error.  When [getTable] throws, or when the table
    operation behind a method throws, the method throws that same value,
    and the world is the one the failed step left: no hook is applied and
    nothing is logged. *)
Theorem dao_passes_errors_on
  (S : Type) (dao : DAO S) (db : Driver S) (e : value) (w w1 : World S)
  (id criteria record options : value) :
  (getTable dao db w = (Threw e, w1) ->
   CreateAndReadDAO.findById dao db id w = (Threw e, w1)
   /\ CreateAndReadDAO.findAllFor dao db criteria options w = (Threw e, w1)
   /\ CreateAndReadDAO.count dao db criteria w = (Threw e, w1)
   /\ CreateAndReadDAO.insert dao db record options w = (Threw e, w1)
   /\ CreateAndReadDAO.save dao db record w = (Threw e, w1)
   /\ BaseDAO.updateById dao db id record w = (Threw e, w1)
   /\ BaseDAO.update dao db criteria record w = (Threw e, w1)
   /\ BaseDAO.removeById dao db id w = (Threw e, w1)
   /\ BaseDAO.removeAllFor dao db criteria w = (Threw e, w1))
  /\ (forall table w0,
        getTable dao db w = (Returned table, w0) ->
        (PantryView.findOne db table id Undefined w0 = (Threw e, w1) ->
         CreateAndReadDAO.findById dao db id w = (Threw e, w1))
        /\ (PantryView.find db table criteria options w0 = (Threw e, w1) ->
            CreateAndReadDAO.findAllFor dao db criteria options w = (Threw e, w1))
        /\ (PantryView.count db table criteria w0 = (Threw e, w1) ->
            CreateAndReadDAO.count dao db criteria w = (Threw e, w1))
        /\ (PantryTable.insertOne db table (sanitizeInsertRecord dao record) options w0
            = (Threw e, w1) ->
            CreateAndReadDAO.insert dao db record options w = (Threw e, w1))
        /\ (PantryTable.save db table (sanitizeInsertRecord dao record) w0 = (Threw e, w1) ->
            CreateAndReadDAO.save dao db record w = (Threw e, w1))
        /\ (PantryTable.updateOne db table id (sanitizeUpdateRecord dao record) Undefined w0
            = (Threw e, w1) ->
            BaseDAO.updateById dao db id record w = (Threw e, w1))
        /\ (PantryTable.update db table criteria (sanitizeUpdateRecord dao record) w0
            = (Threw e, w1) ->
            BaseDAO.update dao db criteria record w = (Threw e, w1))
        /\ (PantryTable.destroyOne db table id w0 = (Threw e, w1) ->
            BaseDAO.removeById dao db id w = (Threw e, w1))
        /\ (PantryTable.destroy db table criteria w0 = (Threw e, w1) ->
            BaseDAO.removeAllFor dao db criteria w = (Threw e, w1))).
Proof.
  unfold CreateAndReadDAO.findById, CreateAndReadDAO.findAllFor, CreateAndReadDAO.count,
    CreateAndReadDAO.insert, CreateAndReadDAO.save, BaseDAO.updateById, BaseDAO.update,
    BaseDAO.removeById, BaseDAO.removeAllFor, bind.
  split.
  - intros ->. repeat split.
  - intros table w0 ->. repeat split; intros H; rewrite H; reflexivity.
Qed.

Lemma dao_passes_errors_on_witness :
  fst (CreateAndReadDAO.findById trimming_dao (StubDb.failing (Str "deadlock detected"))
         (of_Z 7) (init tt))
  = Threw (Str "deadlock detected").
Proof.
  destruct (proj2 (dao_passes_errors_on unit trimming_dao
                     (StubDb.failing (Str "deadlock detected")) (Str "deadlock detected")
                     (init tt)
                     (mkWorld tt [mkCall "ingredient" "findOne" [of_Z 7]] [])
                     (of_Z 7) Undefined Undefined Undefined)
              (PantryView.mk "ingredient" None (Obj [])) (init tt) eq_refl) as (H & _).
  rewrite (H eq_refl). reflexivity.
Defined.

(** X17. When the table answers no row -- null, or anything falsy -- the
    single-row methods return null, and [defaultMapper] is not asked: the
    result is null whatever the hook would have made of the answer. *)
Theorem absent_row_is_null
  (S : Type) (dao : DAO S) (db : Driver S) (table : PantryView.t S)
  (answer id record options : value) (w w1 w2 : World S) :
  getTable dao db w = (Returned table, w1) ->
  truthy answer = false ->
  (PantryView.findOne db table id Undefined w1 = (Returned answer, w2) ->
   CreateAndReadDAO.findById dao db id w = (Returned Null, w2)
   /\ CreateAndReadDAO.findOneFor dao db id w = (Returned Null, w2))
  /\ (PantryTable.insertOne db table (sanitizeInsertRecord dao record) options w1
      = (Returned answer, w2) ->
      CreateAndReadDAO.insert dao db record options w = (Returned Null, w2))
  /\ (PantryTable.save db table (sanitizeInsertRecord dao record) w1 = (Returned answer, w2) ->
      CreateAndReadDAO.save dao db record w = (Returned Null, w2))
  /\ (PantryTable.updateOne db table id (sanitizeUpdateRecord dao record) Undefined w1
      = (Returned answer, w2) ->
      BaseDAO.updateById dao db id record w = (Returned Null, w2)).
Proof.
  intros Hget Hfalsy.
  unfold CreateAndReadDAO.findById, CreateAndReadDAO.findOneFor, CreateAndReadDAO.insert,
    CreateAndReadDAO.save, BaseDAO.updateById, bind, ret, map_or_null.
  rewrite Hget.
  split; [intros H; rewrite H, Hfalsy; split; reflexivity |].
  split; [| split]; intros H; rewrite H, Hfalsy; reflexivity.
Qed.

Lemma absent_row_is_null_witness :
  fst (CreateAndReadDAO.findById
         (mkDAO (fun _ => ret (PantryView.mk "ingredient" None (Obj [])))
            (fun _ => Obj [("name", Str "made up")]) (fun r => r) (fun r => r))
         MemDb.driver (of_Z 404) (init MemDb.one_vendor))
  = Returned Null.
Proof.
  destruct (absent_row_is_null MemDb.Store
              (mkDAO (fun _ => ret (PantryView.mk "ingredient" None (Obj [])))
                 (fun _ => Obj [("name", Str "made up")]) (fun r => r) (fun r => r))
              MemDb.driver (PantryView.mk "ingredient" None (Obj []))
              Null (of_Z 404) Undefined Undefined
              (init MemDb.one_vendor) (init MemDb.one_vendor)
              (mkWorld MemDb.one_vendor [mkCall "ingredient" "findOne" [of_Z 404]] [])
              eq_refl eq_refl) as (H & _).
  destruct (H eq_refl) as (Hfind & _). rewrite Hfind. reflexivity.
Defined.

(* ------------------------------------------------------------------ *)
(** *** Counting *)

(** X18. When the table's count converts to a number, [count] returns that
    number and writes nothing to the console.  In particular the decimal
    text of a count [n] up to [2^53] is returned as [n] (a longer text is
    rounded to the nearest double), and a null count as 0. *)
Theorem count_converts_the_count
  (S : Type) (dao : DAO S) (db : Driver S) (table : PantryView.t S)
  (criteria counted : value) (w w1 w2 : World S) :
  getTable dao db w = (Returned table, w1) ->
  PantryView.count db table criteria w1 = (Returned counted, w2) ->
  (isNaN (Number counted) = false ->
   CreateAndReadDAO.count dao db criteria w = (Returned (Num (Number counted)), w2))
  /\ (forall n, exact n -> counted = Str (decimal_text n) ->
        CreateAndReadDAO.count dao db criteria w = (Returned (Num (of_nat n)), w2))
  /\ (counted = Null ->
      CreateAndReadDAO.count dao db criteria w = (Returned (Num zero), w2)).
Proof.
  intros Hget Hcount.
  assert (General : isNaN (Number counted) = false ->
            CreateAndReadDAO.count dao db criteria w = (Returned (Num (Number counted)), w2)).
  { intros Hn. unfold CreateAndReadDAO.count, bind, ret. rewrite Hget, Hcount, Hn.
    reflexivity. }
  split; [exact General | split].
  - intros n Hexact ->. rewrite <- (Number_decimal n Hexact). apply General.
    rewrite (Number_decimal n Hexact). reflexivity.
  - intros ->. apply General. reflexivity.
Qed.

Lemma count_converts_the_count_witness :
  CreateAndReadDAO.count trimming_dao (StubDb.answering (Str "42")) (Obj []) (init tt)
  = (Returned (of_Z 42), mkWorld tt [mkCall "ingredient" "count" [Obj []]] []).
Proof.
  assert (Hexact : exact 42%nat) by (unfold exact; simpl; lia).
  exact (proj1 (proj2 (count_converts_the_count unit trimming_dao
                         (StubDb.answering (Str "42"))
                         (PantryView.mk "ingredient" None (Obj [])) (Obj []) (Str "42")
                         (init tt) (init tt)
                         (mkWorld tt [mkCall "ingredient" "count" [Obj []]] [])
                         eq_refl eq_refl)) 42%nat Hexact eq_refl).
Defined.

(* ------------------------------------------------------------------ *)
(** *** Scripts *)

Lemma own_property_found {S : Type} (scriptName : string) (f : PantryView.Script S)
    (before after : list (string * PantryView.Script S)) :
  ~ In scriptName (map fst before) ->
  hasOwnProperty (before ++ (scriptName, f) :: after)%list scriptName = true
  /\ PantryView.property scriptName (before ++ (scriptName, f) :: after)%list = f.
Proof.
  intros Hnot. split.
  - unfold hasOwnProperty. apply existsb_exists. exists (scriptName, f).
    split; [apply in_elt | apply String.eqb_refl].
  - induction before as [| [k g] before IH]; simpl.
    + rewrite String.eqb_refl. reflexivity.
    + destruct (String.eqb_spec scriptName k) as [-> | _].
      * exfalso. apply Hnot. left. reflexivity.
      * apply IH. intros Hin. apply Hnot. right. exact Hin.
Qed.

(** X19. A script that is defined on the table's scripts object is the one the
    accessor returns, and the DAO's [script] runs it on the parameters and
    returns what it returns. *)
Theorem defined_script_is_run
  (S : Type) (dao : DAO S) (db : Driver S) (this : PantryView.t S)
  (scriptName : string) (f : PantryView.Script S)
  (before after : list (string * PantryView.Script S))
  (params : value) (w w1 : World S) :
  PantryView.scripts this = Some (before ++ (scriptName, f) :: after)%list ->
  ~ In scriptName (map fst before) ->
  getTable dao db w = (Returned this, w1) ->
  PantryView.script this scriptName = Returned f
  /\ CreateAndReadDAO.script dao db scriptName params w = f params w1.
Proof.
  intros Hs Hnot Hget.
  destruct (own_property_found scriptName f before after Hnot) as [Hown Hprop].
  assert (E : PantryView.script this scriptName = Returned f).
  { unfold PantryView.script. rewrite Hs, Hown, Hprop. reflexivity. }
  split; [exact E |].
  unfold CreateAndReadDAO.script, bind, lift, ret. rewrite Hget, E.
  destruct (f params w1) as [[r | e] w2]; reflexivity.
Qed.

Lemma defined_script_is_run_witness :
  let byVendor : PantryView.Script unit :=
    fun params => call (StubDb.answering (Arr [padded_row]))
                    (mkCall "scripts" "byVendor" [params]) in
  let table := PantryView.mk "ingredient" (Some [("byVendor", byVendor)]) (Obj []) in
  CreateAndReadDAO.script (plain_dao (fun _ => ret table)) (StubDb.answering Null)
    "byVendor" (Obj [("vendor_id", of_Z 1)]) (init tt)
  = (Returned (Arr [padded_row]),
     mkWorld tt [mkCall "scripts" "byVendor" [Obj [("vendor_id", of_Z 1)]]] []).
Proof.
  intros byVendor table.
  assert (Hnot : ~ In "byVendor" (map fst (@nil (string * PantryView.Script unit))))
    by (intros []).
  rewrite (proj2 (defined_script_is_run unit (plain_dao (fun _ => ret table))
                    (StubDb.answering Null) table "byVendor" byVendor [] []
                    (Obj [("vendor_id", of_Z 1)]) (init tt) (init tt) eq_refl Hnot eq_refl)).
  reflexivity.
Defined.

(* ------------------------------------------------------------------ *)
(** *** The row hook, on concrete tables *)

Lemma single_row_operations_map_witness :
  CreateAndReadDAO.findById trimming_dao (StubDb.answering padded_row) (of_Z 7) (init tt)
  = (Returned (Obj [("id", of_Z 7); ("name", Str "Salt")]),
     mkWorld tt [mkCall "ingredient" "findOne" [of_Z 7]] []).
Proof.
  apply (proj1 (single_row_operations_map trimming_dao (StubDb.answering padded_row)
                  (PantryView.mk "ingredient" None (Obj []))
                  (init tt) (init tt)
                  (mkWorld tt [mkCall "ingredient" "findOne" [of_Z 7]] [])
                  eq_refl padded_row (of_Z 7) Undefined Undefined)).
  reflexivity.
Defined.

Lemma list_operations_map_witness :
  CreateAndReadDAO.findAll trimming_dao (StubDb.answering (Arr [padded_row; padded_row]))
    Undefined (init tt)
  = (Returned (Arr [Obj [("id", of_Z 7); ("name", Str "Salt")];
                    Obj [("id", of_Z 7); ("name", Str "Salt")]]),
     mkWorld tt [mkCall "ingredient" "find" [Undefined; Obj []]] []).
Proof.
  assert (Hfree : receiver_free trimming_dao) by (intros row index array; reflexivity).
  apply (proj1 (list_operations_map trimming_dao
                  (StubDb.answering (Arr [padded_row; padded_row]))
                  (PantryView.mk "ingredient" None (Obj []))
                  (init tt) (init tt)
                  (mkWorld tt [mkCall "ingredient" "find" [Undefined; Obj []]] [])
                  eq_refl Hfree [padded_row; padded_row] Undefined Undefined)).
  reflexivity.
Defined.

End PantryMore.

(* ================================================================== *)
(** ** More on the ingredient form *)
(* ================================================================== *)

Module FormMore.
Import Js BasicForm BasicFormInput FormSpec MoreSpec JsFacts FormFacts.

(** X22. Editing a field stores the new value in that field alone, and the
    field is no longer drawn in error, whatever was typed: nothing is
    validated again.  The other fields keep their values and their
    errors, and the spinner and the notice are untouched. *)
Theorem handleInputChange_clears_own_error (field : Field) (value : string) (st : State) :
  let st' := handleInputChange field value st in
  read field (formData st') = value
  /\ in_error field (errors st') = false
  /\ (forall other, other <> field ->
        read other (formData st') = read other (formData st)
        /\ error_of other (errors st') = error_of other (errors st))
  /\ isSubmitting st' = isSubmitting st
  /\ submitMessage st' = submitMessage st.
Proof.
  unfold handleInputChange.
  destruct (in_error field (errors st)) eqn:E;
    (split; [| split; [| split; [| split]]]);
    try (destruct field; reflexivity);
    try (destruct field; exact E);
    intros other Hother; destruct field; destruct other; try contradiction;
      split; reflexivity.
Qed.

Lemma handleInputChange_clears_own_error_witness :
  let st := mkState (mkFormData "Salt" "" "1" "1")
              (mkErrors None (Some "Unit is required") None None) false None in
  in_error field_unit (errors st) = true
  /\ in_error field_unit (errors (handleInputChange field_unit "g" st)) = false
  /\ read field_unit (formData (handleInputChange field_unit "g" st)) = "g".
Proof.
  intros st.
  destruct (handleInputChange_clears_own_error field_unit "g" st) as (Hread & Herr & _).
  split; [reflexivity | split; [exact Herr | exact Hread]].
Defined.

Lemma message_in_error (field : Field) (d : IngredientFormData) :
  error_of field (newErrors d) <> None -> in_error field (newErrors d) = true.
Proof.
  unfold in_error. destruct field; simpl.
  - destruct (is_empty (trim (name d))); [reflexivity | intros H; contradiction].
  - destruct (is_empty (unit d)); [reflexivity | intros H; contradiction].
  - unfold validate_cost. destruct (is_empty (trim (cost_per_unit d))); [reflexivity |].
    destruct (isNaN (parseFloat (cost_per_unit d)) || lt (parseFloat (cost_per_unit d)) zero)%bool;
      [reflexivity | intros H; contradiction].
  - destruct (is_empty (vendor_id d)); [reflexivity | intros H; contradiction].
Qed.

(** X23. A form that fails validation is not sent: no request is issued, the
    data, the spinner and the notice stay as they were, the errors are the
    ones validation found, and at least one field is drawn in error. *)
Theorem invalid_form_is_not_sent (fetch : Request -> FetchOutcome) (st : State) :
  fst (validateForm st) = false ->
  let st' := fst (handleSubmit fetch st) in
  snd (handleSubmit fetch st) = []
  /\ formData st' = formData st
  /\ isSubmitting st' = isSubmitting st
  /\ submitMessage st' = submitMessage st
  /\ errors st' = newErrors (formData st)
  /\ exists field, in_error field (errors st') = true.
Proof.
  intros Hinvalid. simpl. rewrite (handleSubmit_blocked fetch st Hinvalid). simpl.
  repeat split.
  unfold validateForm in Hinvalid. simpl in Hinvalid. unfold no_keys in Hinvalid.
  destruct (err_name (newErrors (formData st))) eqn:E1;
    [exists field_name; apply message_in_error; unfold error_of; rewrite E1; discriminate |].
  destruct (err_unit (newErrors (formData st))) eqn:E2;
    [exists field_unit; apply message_in_error; unfold error_of; rewrite E2; discriminate |].
  destruct (err_cost_per_unit (newErrors (formData st))) eqn:E3;
    [exists field_cost_per_unit; apply message_in_error; unfold error_of; rewrite E3; discriminate |].
  destruct (err_vendor_id (newErrors (formData st))) eqn:E4;
    [exists field_vendor_id; apply message_in_error; unfold error_of; rewrite E4; discriminate |].
  discriminate Hinvalid.
Qed.

Lemma invalid_form_is_not_sent_witness :
  snd (handleSubmit (fun _ => Rejected Undefined)
         (mkState (mkFormData "Salt" "g" "-1" "1") no_errors false None))
  = [].
Proof.
  exact (proj1 (invalid_form_is_not_sent (fun _ => Rejected Undefined)
                  (mkState (mkFormData "Salt" "g" "-1" "1") no_errors false None) eq_refl)).
Defined.

(** X24. Once a valid form has been sent -- one request, whatever the fetch
    does -- the spinner is off again, and the form is in one of two
    states: cleared, with no notice, or with the data as typed and an
    error notice. *)
Theorem sent_form_ends_idle (fetch : Request -> FetchOutcome) (st : State) :
  valid st ->
  let st' := fst (handleSubmit fetch st) in
  snd (handleSubmit fetch st) = [submit_request (formData st)]
  /\ isSubmitting st' = false
  /\ (st' = mkState empty_form no_errors false None
      \/ exists text,
           st' = mkState (formData st) no_errors false (Some (mkMessage error text))).
Proof.
  intros Hv. simpl. rewrite (handleSubmit_sends fetch st Hv). simpl.
  assert (He : newErrors (formData st) = no_errors).
  { unfold valid, validateForm in Hv. simpl in Hv. unfold no_keys in Hv.
    destruct (newErrors (formData st)) as [[?|] [?|] [?|] [?|]]; simpl in Hv;
      try discriminate Hv. reflexivity. }
  unfold submitting. rewrite He.
  split; [reflexivity |].
  destruct (fetch (submit_request (formData st))) as [r | e]; simpl.
  - destruct (ok r); simpl.
    + split; [reflexivity | left; reflexivity].
    + destruct (json r) as [errorData | e]; simpl.
      * destruct (get errorData "message") as [m | e]; simpl;
          (split; [reflexivity | right; eexists; reflexivity]).
      * split; [reflexivity | right; eexists; reflexivity].
  - split; [reflexivity | right; eexists; reflexivity].
Qed.

Lemma sent_form_ends_idle_witness :
  isSubmitting (fst (handleSubmit (fun _ => Rejected (Str "offline")) salt_form)) = false.
Proof.
  exact (proj1 (proj2 (sent_form_ends_idle (fun _ => Rejected (Str "offline")) salt_form
                         eq_refl))).
Defined.

(** X25. A non-2xx response whose body cannot be read -- [response.json()]
    rejects, or it yields null -- is reported with the network-error
    notice, not with the fallback message; the fields keep what was
    typed. *)
Theorem unreadable_error_body_reads_as_network_error
  (fetch : Request -> FetchOutcome) (st : State) (r : FetchResponse) :
  valid st ->
  fetch (submit_request (formData st)) = Resolved r ->
  ok r = false ->
  (exists e, json r = Threw e) \/ json r = Returned Null \/ json r = Returned Undefined ->
  let st' := fst (handleSubmit fetch st) in
  notice_shown st' = Some (mkMessage error (Str "Network error. Please try again."))
  /\ formData st' = formData st.
Proof.
  intros Hv Hf Hok Hbody. simpl. rewrite (handleSubmit_sends fetch st Hv), Hf.
  unfold after_fetch. rewrite Hok.
  destruct Hbody as [(e & ->) | [-> | ->]]; split; reflexivity.
Qed.

Lemma unreadable_error_body_reads_as_network_error_witness :
  notice_shown
    (fst (handleSubmit
            (fun _ => Resolved (mkFetchResponse 502 (Threw (Str "Unexpected token <"))))
            salt_form))
  = Some (mkMessage error (Str "Network error. Please try again.")).
Proof.
  apply (unreadable_error_body_reads_as_network_error
           (fun _ => Resolved (mkFetchResponse 502 (Threw (Str "Unexpected token <"))))
           salt_form (mkFetchResponse 502 (Threw (Str "Unexpected token <")))
           eq_refl eq_refl eq_refl).
  left. exists (Str "Unexpected token <"). reflexivity.
Defined.

Lemma handleSubmit_non_2xx_witness :
  notice_shown
    (fst (handleSubmit
            (fun _ => Resolved (mkFetchResponse 400
                                  (Returned (Obj [("message", Str "Vendor not found")]))))
            salt_form))
  = Some (mkMessage error (Str "Vendor not found")).
Proof.
  apply (handleSubmit_non_2xx
           (fun _ => Resolved (mkFetchResponse 400
                                 (Returned (Obj [("message", Str "Vendor not found")]))))
           salt_form
           (mkFetchResponse 400 (Returned (Obj [("message", Str "Vendor not found")])))
           (Obj [("message", Str "Vendor not found")]) (Str "Vendor not found")
           eq_refl eq_refl eq_refl eq_refl eq_refl).
Defined.

Lemma handleSubmit_rejected_witness :
  notice_shown (fst (handleSubmit (fun _ => Rejected (Str "offline")) salt_form))
  = Some (mkMessage error (Str "Network error. Please try again.")).
Proof.
  apply (handleSubmit_rejected (fun _ => Rejected (Str "offline")) salt_form (Str "offline")
           eq_refl eq_refl).
Defined.

(** X29. A cost and a vendor typed as the decimal text of a number up to
    [2^53] pass the form's checks on those fields and reach the request
    body, through JSON, as that number.  (A longer text is rounded to the
    nearest double.) *)
Theorem decimal_fields_are_sent_as_numbers (d : IngredientFormData) (cost vendor : nat) :
  exact cost ->
  exact vendor ->
  cost_per_unit d = decimal_text cost ->
  vendor_id d = decimal_text vendor ->
  err_cost_per_unit (newErrors d) = None
  /\ err_vendor_id (newErrors d) = None
  /\ get (payload (submit_request d)) "cost_per_unit" = Returned (Num (of_nat cost))
  /\ get (payload (submit_request d)) "vendor_id" = Returned (Num (of_nat vendor)).
Proof.
  intros Ec Ev Hc Hv. unfold newErrors, submit_request, validate_cost, is_empty. simpl.
  rewrite Hc, Hv, (parseFloat_decimal cost Ec), (parseInt_decimal vendor Ev).
  destruct (trim_decimal cost) as [-> Hne]. destruct (trim_decimal vendor) as [_ Hne'].
  destruct (String.eqb_spec (decimal_text cost) ""); [contradiction |].
  destruct (String.eqb_spec (decimal_text vendor) ""); [contradiction |].
  assert (Hpos : lt (of_nat cost) zero = false).
  { unfold lt, of_nat, zero. apply negb_false_iff. apply Qle_bool_iff.
    unfold Qle, inject_Z. simpl. lia. }
  simpl isNaN. rewrite Hpos. repeat split.
Qed.

Lemma decimal_fields_are_sent_as_numbers_witness :
  get (payload (submit_request (mkFormData "Salt" "g" "12" "3"))) "cost_per_unit"
  = Returned (of_Z 12).
Proof.
  assert (E12 : exact 12%nat) by (unfold exact; simpl; lia).
  assert (E3 : exact 3%nat) by (unfold exact; simpl; lia).
  exact (proj1 (proj2 (proj2 (decimal_fields_are_sent_as_numbers
                                (mkFormData "Salt" "g" "12" "3") 12 3 E12 E3
                                eq_refl eq_refl)))).
Defined.

End FormMore.

(* ================================================================== *)
(** ** The form's payload at the POST handler *)
(* ================================================================== *)

Module FormToRoute.
Import Js Eff BasicForm FormSpec MoreSpec RouterMoreSpec FormMoreSpec JsFacts NumberFacts RouterSpec RouterMore.

Lemma valid_fields (st : State) :
  valid st ->
  let d := formData st in
  trim (name d) <> "" /\ unit d <> ""
  /\ lt (parseFloat (cost_per_unit d)) zero = false
  /\ vendor_id d <> "".
Proof.
  unfold valid, validateForm. simpl. unfold no_keys, newErrors, validate_cost, is_empty. simpl.
  destruct (String.eqb_spec (trim (name (formData st))) ""); [discriminate |].
  destruct (String.eqb_spec (unit (formData st)) ""); [discriminate |].
  destruct (String.eqb (trim (cost_per_unit (formData st))) ""); [discriminate |].
  destruct (isNaN (parseFloat (cost_per_unit (formData st)))); [discriminate |].
  destruct (lt (parseFloat (cost_per_unit (formData st))) zero); [discriminate |].
  destruct (String.eqb_spec (vendor_id (formData st)) ""); [discriminate |].
  intros _. repeat split; assumption.
Qed.

(** With a vendor from the menu and a finite cost, every member of the
    payload is a string or a finite number, and JSON carries it as it
    is. *)
Lemma payload_passes_JSON (d : IngredientFormData) (q : Q) :
  In (vendor_id d) vendor_menu ->
  parseFloat (cost_per_unit d) = Finite q ->
  payload (submit_request d)
  = Obj [("name", Str (trim (name d))); ("unit", Str (unit d));
         ("cost_per_unit", Num (parseFloat (cost_per_unit d)));
         ("vendor_id", Num (parseInt (vendor_id d)))].
Proof.
  intros Hmenu Hq. unfold submit_request. cbn [payload]. rewrite Hq.
  destruct Hmenu as [<- | [<- | [<- | [<- | []]]]]; reflexivity.
Qed.

(** X28. The client's checks are enough for the server's.  For a form that
    passes validation, with a vendor picked from the menu and a cost that
    [parseFloat] reads as a finite number, the payload sent -- as JSON
    carries it -- passes every check of the POST handler; the server's
    trim finds nothing left to trim, so the record inserted is the payload
    itself, and with the vendor found the answer is 201.  (A cost that
    overflows, such as 1e400, is sent as null and is not covered.) *)
Theorem valid_form_is_accepted
  (S : Type) (db : Driver S) (w : World S) (st : State) (q : Q)
  (vendor row : value) (s1 s2 : S) :
  valid st ->
  In (vendor_id (formData st)) vendor_menu ->
  parseFloat (cost_per_unit (formData st)) = Finite q ->
  let sent := payload (submit_request (formData st)) in
  let lookup := mkCall "entity" "findOne" [Num (parseInt (vendor_id (formData st)))] in
  let insert := mkCall "ingredient" "insert" [sent] in
  db lookup (store w) = (Returned vendor, s1) ->
  truthy vendor = true ->
  db insert s1 = (Returned row, s2) ->
  IngredientRouter.post db sent w
  = (Returned (IngredientRouter.mkResponse 201
       (Obj [("message", Str "Ingredient created successfully"); ("ingredient", row)])),
     mkWorld s2 (calls w ++ [lookup; insert]) (console w)).
Proof.
  intros Hv Hmenu Hq sent lookup insert Hfind Htruthy Hins.
  destruct (valid_fields st Hv) as (Hname & Hunit & Hcost & _).
  assert (Hpos : lt zero (parseInt (vendor_id (formData st))) = true).
  { destruct Hmenu as [<- | [<- | [<- | [<- | []]]]]; reflexivity. }
  subst insert sent. rewrite (payload_passes_JSON (formData st) q Hmenu Hq) in *.
  match goal with
  | |- IngredientRouter.post db ?body w = _ =>
      assert (Hwf : well_formed body (trim (name (formData st))) (unit (formData st))
                      (parseFloat (cost_per_unit (formData st)))
                      (parseInt (vendor_id (formData st))))
        by (repeat split; assumption);
      rewrite (post_past_checks S db w body _ _ _ _ Hwf)
  end.
  unfold find_vendor, insert_ingredient, checked_record, IngredientRouter.insert_record.
  rewrite trim_idempotent.
  unfold lookup in Hfind.
  rewrite Hfind, Htruthy, Hins. reflexivity.
Qed.

Lemma valid_form_is_accepted_witness :
  fst (IngredientRouter.post MemDb.driver (payload (submit_request (formData salt_form)))
         (init MemDb.one_vendor))
  = Returned (IngredientRouter.mkResponse 201
      (Obj [("message", Str "Ingredient created successfully");
            ("ingredient",
             Obj [("id", of_Z 1); ("name", Str "Salt"); ("unit", Str "g");
                  ("cost_per_unit", of_Z 1); ("vendor_id", of_Z 1)])])).
Proof.
  rewrite (valid_form_is_accepted MemDb.Store MemDb.driver (init MemDb.one_vendor)
             salt_form 1%Q MemDb.vendor1
             (Obj [("id", of_Z 1); ("name", Str "Salt"); ("unit", Str "g");
                   ("cost_per_unit", of_Z 1); ("vendor_id", of_Z 1)])
             MemDb.one_vendor
             (MemDb.mkStore [MemDb.vendor1]
                [Obj [("id", of_Z 1); ("name", Str "Salt"); ("unit", Str "g");
                      ("cost_per_unit", of_Z 1); ("vendor_id", of_Z 1)]] 2)).
  - reflexivity.
  - reflexivity.
  - left. reflexivity.
  - reflexivity.
  - reflexivity.
  - reflexivity.
  - reflexivity.
Defined.

(** The finite cost is needed.  A cost beyond the doubles passes the form's
    checks, is read as Infinity and sent as null, and the handler answers
    400 without a call. *)
Example overflowing_cost_is_refused :
  let st := mkState (mkFormData "Salt" "g" "1e400" "1") no_errors false None in
  valid st
  /\ parseFloat (cost_per_unit (formData st)) = Infinity false
  /\ get (payload (submit_request (formData st))) "cost_per_unit" = Returned Null
  /\ IngredientRouter.post MemDb.driver (payload (submit_request (formData st)))
       (init MemDb.one_vendor)
     = (Returned (IngredientRouter.mkResponse 400
                    (Obj [("message", Str "Cost per unit must be a positive number")])),
        init MemDb.one_vendor).
Proof.
  cbv zeta. split; [| split; [| split]]; vm_compute; reflexivity.
Qed.

End FormToRoute.
